(** * evidence/experimental_evidence.py

    A model of the module [src/evidence/experimental_evidence.py]: its
    top-level statements (imports and three class statements) and the bodies
    of its seven functions, written as programs over the operations a Python
    interpreter performs for them (name lookup, attribute access, item
    assignment, calls), together with an interpreter for these operations
    over a store of globals, classes and heap objects.

    Conventions of the model.
    - Function definition follows CPython 3.0-3.13 without
      [from __future__ import annotations]: the annotations of a [def] are
      evaluated when the [def] statement runs; annotations written as string
      literals are constants.
    - The seven imports resolve (the libraries are installed).
    - Objects are records of attributes; reading an attribute runs no user
      code, and the attributes the interpreter keeps for every object (such
      as [__class__]) are left out.  Calls of objects the module does not
      define are answered by an arbitrary function [foreign], over which
      every statement quantifies. *)

From Stdlib Require Import ZArith SpecFloat.
From stdpp Require Import base option strings list gmap.

Open Scope string_scope.
Open Scope list_scope.
Set Warnings "-register-all".

(** ** Values *)

Inductive value :=
| VNone
| VFloat (x : spec_float)              (* a binary64 float *)
| VStr (s : string)
| VList (xs : list value)
| VObj (a : nat)                       (* reference to a heap object *)
| VClass (c : string)                  (* a class created by a class statement *)
| VFunc (q : string)                   (* a function of this module, by qualified name *)
| VMethod (q : string) (self : value)  (* a bound method *)
| VModule (m : string)                 (* an imported module *)
| VLib (q : string)                    (* an object of a library or of builtins *)
| VAlias (q : string) (arg : value).   (* a subscripted generic, e.g. List['RealityGap'] *)

Inductive exn :=
| NameError (n : string)
| AttributeError (n : string)
| TypeError
| ValueError
| ImportError (n : string)
| KeyError (k : string)
| Raised (v : value).

(** A heap cell: an instance with its class name and attributes, or a
    mapping with string keys. *)
Inductive cell :=
| Instance (cls : string) (attrs : gmap string value)
| Mapping (items : gmap string value).

(** A class object.  [c_fields] is set by [dataclass]: the parameters of the
    generated [__init__], each with its default. *)
Record class_obj := {
  c_annotations : list (string * value);
  c_slots : option (list string);
  c_dict : list (string * value);
  c_fields : option (list (string * option value))
}.

Record state := {
  globals : gmap string value;
  classes : gmap string class_obj;
  heap : gmap nat cell
}.

Inductive outcome :=
| Ok (v : value) (s : state)
| Err (e : exn) (s : state)
| OutOfFuel.

(** ** Operations and programs *)

Inductive op :=
| LoadGlobal (n : string)
| LoadName (locals : list (string * value)) (n : string)
| StoreGlobal (n : string) (v : value)
| LoadAttr (o : value) (n : string)
| StoreAttr (o : value) (n : string) (v : value)
| Subscript (o : value) (k : value)
| StoreSubscr (o : value) (k : value) (v : value)
| Call (f : value) (args : list value) (kwargs : list (string * value))
| ImportModule (m : string)
| ImportFrom (m : string) (n : string)
| BuildClass (name : string) (annotations : list (string * value))
             (ns : list (string * value))
| Raise (v : value).

(** A program performs operations one after the other; [Try] is Python's
    [try]/[except]. *)
Inductive prog :=
| Ret (v : value)
| Vis (o : op) (k : value -> prog)
| Try (body : prog) (handler : exn -> prog) (k : value -> prog).

Fixpoint bind (p : prog) (f : value -> prog) : prog :=
  match p with
  | Ret v => f v
  | Vis o k => Vis o (fun v => bind (k v) f)
  | Try b h k => Try b h (fun v => bind (k v) f)
  end.

Definition perform (o : op) : prog := Vis o Ret.

Notation "x <- p ;; q" := (bind p (fun x => q))
  (at level 100, p at next level, right associativity).
Notation "p ;; q" := (bind p (fun _ => q))
  (at level 100, right associativity).

(** The shape of an operation: the operation without the values it is
    applied to. *)
Inductive shape :=
| SLoadGlobal (n : string)
| SLoadName (n : string)
| SStoreGlobal (n : string)
| SLoadAttr (n : string)
| SStoreAttr (n : string)
| SSubscript
| SStoreSubscr
| SCall (nargs : nat) (keywords : list string)
| SImportModule (m : string)
| SImportFrom (m n : string)
| SBuildClass (name : string)
| SRaise.

Definition shape_of (o : op) : shape :=
  match o with
  | LoadGlobal n => SLoadGlobal n
  | LoadName _ n => SLoadName n
  | StoreGlobal n _ => SStoreGlobal n
  | LoadAttr _ n => SLoadAttr n
  | StoreAttr _ n _ => SStoreAttr n
  | Subscript _ _ => SSubscript
  | StoreSubscr _ _ _ => SStoreSubscr
  | Call _ args kwargs => SCall (length args) (kwargs.*1)
  | ImportModule m => SImportModule m
  | ImportFrom m n => SImportFrom m n
  | BuildClass name _ _ => SBuildClass name
  | Raise _ => SRaise
  end.

(** [follows l p]: whatever the operations answer, [p] performs exactly the
    operations of shapes [l], in this order, and then returns; it has no
    [Try].  A program that follows a list is straight-line code. *)
Inductive follows : list shape -> prog -> Prop :=
| follows_ret v : follows [] (Ret v)
| follows_vis o k l :
    (forall v, follows l (k v)) -> follows (shape_of o :: l) (Vis o k).

Definition load_global (n : string) : prog := perform (LoadGlobal n).
Definition load_name (locals : list (string * value)) (n : string) : prog :=
  perform (LoadName locals n).
Definition store_global (n : string) (v : value) : prog :=
  perform (StoreGlobal n v).
Definition load_attr (o : value) (n : string) : prog := perform (LoadAttr o n).
Definition store_attr (o : value) (n : string) (v : value) : prog :=
  perform (StoreAttr o n v).
Definition subscript (o k : value) : prog := perform (Subscript o k).
Definition store_subscr (o k v : value) : prog := perform (StoreSubscr o k v).
Definition call (f : value) (args : list value)
    (kwargs : list (string * value)) : prog :=
  perform (Call f args kwargs).

(** ** The functions of the module

    Each body lists the operations of the Python body in evaluation order:
    in a call the callee is evaluated before the arguments, the arguments
    from left to right; in an assignment the right-hand side is evaluated
    before the target. *)

Module QuantumEvidence.

(** The six annotated names of the class body, lines 13-18, which are also
    the entries of [__slots__], lines 21-28. *)
Definition field_names : list string :=
  ["consciousness_state"; "reality_gaps"; "cognitive_contradictions";
   "quantum_certainty"; "entanglement_correlation"; "temporal_anomalies"].

(** Lines 30-46. *)
Definition to_report (self : value) : prog :=
  QuantumReport <- load_global "QuantumReport" ;;
  report <- call QuantumReport [] [] ;;
  m <- load_attr self "analyze_consciousness" ;;
  r <- call m [] [] ;;
  store_attr report "consciousness_analysis" r ;;
  m <- load_attr self "map_exploitation_potential" ;;
  r <- call m [] [] ;;
  store_attr report "exploitation_potential" r ;;
  m <- load_attr self "calculate_certainty_metrics" ;;
  r <- call m [] [] ;;
  store_attr report "certainty_metrics" r ;;
  m <- load_attr self "generate_behavioral_signatures" ;;
  r <- call m [] [] ;;
  store_attr report "behavioral_signatures" r ;;
  Ret report.

(** Lines 48-64. *)
Definition analyze_consciousness (self : value) : prog :=
  ConsciousnessAnalysis <- load_global "ConsciousnessAnalysis" ;;
  analysis <- call ConsciousnessAnalysis [] [] ;;
  m <- load_attr self "extract_belief_system" ;;
  r <- call m [] [] ;;
  store_attr analysis "belief_system" r ;;
  m <- load_attr self "map_cognitive_biases" ;;
  r <- call m [] [] ;;
  store_attr analysis "cognitive_biases" r ;;
  m <- load_attr self "identify_reasoning_patterns" ;;
  r <- call m [] [] ;;
  store_attr analysis "reasoning_patterns" r ;;
  m <- load_attr self "detect_consciousness_anomalies" ;;
  r <- call m [] [] ;;
  store_attr analysis "consciousness_anomalies" r ;;
  Ret analysis.

End QuantumEvidence.

Module QuantumEvidenceCollector.

(** Lines 68-71. *)
Definition __init__ (self : value) : prog :=
  QuantumObserver <- load_global "QuantumObserver" ;;
  o <- call QuantumObserver [] [] ;;
  store_attr self "quantum_observer" o ;;
  RealityMonitor <- load_global "RealityMonitor" ;;
  o <- call RealityMonitor [] [] ;;
  store_attr self "reality_monitor" o ;;
  ConsciousnessProbe <- load_global "ConsciousnessProbe" ;;
  o <- call ConsciousnessProbe [] [] ;;
  store_attr self "consciousness_probe" o ;;
  Ret VNone.

(** Lines 73-124. *)
Definition collect_evidence (self target collection_params : value) : prog :=
  (* Phase 1 *)
  observer <- load_attr self "quantum_observer" ;;
  observe <- load_attr observer "observe" ;;
  ObservationMode <- load_global "ObservationMode" ;;
  mode <- load_attr ObservationMode "NON_DEMOLITION" ;;
  quantum_observations <- call observe [target] [("observation_mode", mode)] ;;
  (* Phase 2 *)
  probe_obj <- load_attr self "consciousness_probe" ;;
  probe <- load_attr probe_obj "probe" ;;
  consciousness <- load_attr target "consciousness" ;;
  depth <- load_attr collection_params "probe_depth" ;;
  consciousness_state <- call probe [consciousness] [("probe_depth", depth)] ;;
  (* Phase 3 *)
  monitor <- load_attr self "reality_monitor" ;;
  detect_gaps <- load_attr monitor "detect_gaps" ;;
  reality_model <- load_attr target "reality_model" ;;
  reality_gaps <- call detect_gaps [reality_model; quantum_observations] [] ;;
  (* Phase 4 *)
  m <- load_attr self "discover_cognitive_contradictions" ;;
  contradictions <- call m [consciousness_state; reality_gaps] [] ;;
  (* Phase 5 *)
  m <- load_attr self "calculate_quantum_certainty" ;;
  certainty <- call m [quantum_observations; consciousness_state] [] ;;
  (* Phase 6 *)
  m <- load_attr self "analyze_entanglement_correlation" ;;
  entanglement <- call m [quantum_observations] [] ;;
  (* Phase 7 *)
  m <- load_attr self "detect_temporal_anomalies" ;;
  temporal_anomalies <- call m [quantum_observations] [] ;;
  QuantumEvidence <- load_global "QuantumEvidence" ;;
  call QuantumEvidence []
    [("consciousness_state", consciousness_state);
     ("reality_gaps", reality_gaps);
     ("cognitive_contradictions", contradictions);
     ("quantum_certainty", certainty);
     ("entanglement_correlation", entanglement);
     ("temporal_anomalies", temporal_anomalies)].

End QuantumEvidenceCollector.

Module QuantumReportGenerator.

(** Lines 128-158; [report_format] is not used by the body. *)
Definition generate_report (self evidence report_format : value) : prog :=
  Report <- load_global "Report" ;;
  report <- call Report [] [] ;;
  m <- load_attr self "generate_consciousness_section" ;;
  a <- load_attr evidence "consciousness_state" ;;
  r <- call m [a] [] ;;
  sections <- load_attr report "sections" ;;
  store_subscr sections (VStr "consciousness_analysis") r ;;
  m <- load_attr self "generate_reality_gap_section" ;;
  a <- load_attr evidence "reality_gaps" ;;
  r <- call m [a] [] ;;
  sections <- load_attr report "sections" ;;
  store_subscr sections (VStr "reality_gaps") r ;;
  m <- load_attr self "generate_contradictions_section" ;;
  a <- load_attr evidence "cognitive_contradictions" ;;
  r <- call m [a] [] ;;
  sections <- load_attr report "sections" ;;
  store_subscr sections (VStr "cognitive_contradictions") r ;;
  m <- load_attr self "generate_quantum_metrics_section" ;;
  r <- call m [evidence] [] ;;
  sections <- load_attr report "sections" ;;
  store_subscr sections (VStr "quantum_metrics") r ;;
  m <- load_attr self "generate_exploitation_recommendations" ;;
  r <- call m [evidence] [] ;;
  sections <- load_attr report "sections" ;;
  store_subscr sections (VStr "exploitation_recommendations") r ;;
  m <- load_attr self "generate_behavioral_signatures_section" ;;
  r <- call m [evidence] [] ;;
  sections <- load_attr report "sections" ;;
  store_subscr sections (VStr "behavioral_signatures") r ;;
  Ret report.

(** Lines 160-189. *)
Definition generate_consciousness_section (self state : value) : prog :=
  ReportSection <- load_global "ReportSection" ;;
  section <- call ReportSection []
               [("title", VStr "System Consciousness Analysis")] ;;
  add <- load_attr section "add_subsection" ;;
  m <- load_attr self "map_belief_system" ;;
  a <- load_attr state "beliefs" ;;
  r <- call m [a] [] ;;
  call add [VStr "belief_system_mapping"; r] [] ;;
  add <- load_attr section "add_subsection" ;;
  m <- load_attr self "analyze_cognitive_biases" ;;
  a <- load_attr state "biases" ;;
  r <- call m [a] [] ;;
  call add [VStr "cognitive_biases"; r] [] ;;
  add <- load_attr section "add_subsection" ;;
  m <- load_attr self "analyze_reasoning_patterns" ;;
  a <- load_attr state "reasoning" ;;
  r <- call m [a] [] ;;
  call add [VStr "reasoning_patterns"; r] [] ;;
  add <- load_attr section "add_subsection" ;;
  m <- load_attr self "identify_consciousness_anomalies" ;;
  a <- load_attr state "anomalies" ;;
  r <- call m [a] [] ;;
  call add [VStr "consciousness_anomalies"; r] [] ;;
  Ret section.

End QuantumReportGenerator.

(** ** Argument binding *)

Fixpoint assoc {A} (n : string) (l : list (string * A)) : option A :=
  match l with
  | [] => None
  | (k, v) :: l' => if decide (k = n) then Some v else assoc n l'
  end.

(** Positional arguments fill the parameters from the left; the result is
    the bindings made and the parameters left over. *)
Fixpoint bind_positional (params : list (string * option value))
    (args : list value)
    : option (list (string * value) * list (string * option value)) :=
  match args, params with
  | [], _ => Some ([], params)
  | a :: args', (p, _) :: params' =>
      match bind_positional params' args' with
      | Some (bs, rest) => Some ((p, a) :: bs, rest)
      | None => None
      end
  | _ :: _, [] => None
  end.

(** The parameters left over take their keyword argument, or else their
    default. *)
Fixpoint bind_keywords (rest : list (string * option value))
    (kwargs : list (string * value)) : option (list (string * value)) :=
  match rest with
  | [] => Some []
  | (p, d) :: rest' =>
      match (match assoc p kwargs with Some v => Some v | None => d end),
            bind_keywords rest' kwargs with
      | Some v, Some bs => Some ((p, v) :: bs)
      | _, _ => None
      end
  end.

(** [None] stands for Python's [TypeError] on a call that does not fit the
    signature: too many positional arguments, a keyword that names no
    remaining parameter, or a parameter left without a value. *)
Definition bind_args (params : list (string * option value))
    (args : list value) (kwargs : list (string * value))
    : option (list (string * value)) :=
  match bind_positional params args with
  | Some (bs, rest) =>
      if forallb (fun k => bool_decide (k ∈ rest.*1)) (kwargs.*1)
      then match bind_keywords rest kwargs with
           | Some bs' => Some (bs ++ bs')
           | None => None
           end
      else None
  | None => None
  end.

Definition arg (bs : list (string * value)) (n : string) : value :=
  default VNone (assoc n bs).

(** The function objects the module's [def] statements create: qualified
    name, parameters, body. *)
Definition functions : list (string * (list string * (list (string * value) -> prog))) :=
  [("QuantumEvidence.to_report",
      (["self"], fun bs => QuantumEvidence.to_report (arg bs "self")));
   ("QuantumEvidence.analyze_consciousness",
      (["self"], fun bs => QuantumEvidence.analyze_consciousness (arg bs "self")));
   ("QuantumEvidenceCollector.__init__",
      (["self"], fun bs => QuantumEvidenceCollector.__init__ (arg bs "self")));
   ("QuantumEvidenceCollector.collect_evidence",
      (["self"; "target"; "collection_params"],
       fun bs => QuantumEvidenceCollector.collect_evidence
                   (arg bs "self") (arg bs "target") (arg bs "collection_params")));
   ("QuantumReportGenerator.generate_report",
      (["self"; "evidence"; "report_format"],
       fun bs => QuantumReportGenerator.generate_report
                   (arg bs "self") (arg bs "evidence") (arg bs "report_format")));
   ("QuantumReportGenerator.generate_consciousness_section",
      (["self"; "state"],
       fun bs => QuantumReportGenerator.generate_consciousness_section
                   (arg bs "self") (arg bs "state")))].

(** ** The interpreter's environment *)

(** Names of the [builtins] module: functions and types, constants, and
    exception classes. *)
Definition builtin_names : list string :=
  ["abs"; "aiter"; "all"; "anext"; "any"; "ascii"; "bin"; "bool";
   "breakpoint"; "bytearray"; "bytes"; "callable"; "chr"; "classmethod";
   "compile"; "complex"; "delattr"; "dict"; "dir"; "divmod"; "enumerate";
   "eval"; "exec"; "filter"; "float"; "format"; "frozenset"; "getattr";
   "globals"; "hasattr"; "hash"; "help"; "hex"; "id"; "input"; "int";
   "isinstance"; "issubclass"; "iter"; "len"; "list"; "locals"; "map";
   "max"; "memoryview"; "min"; "next"; "object"; "oct"; "open"; "ord";
   "pow"; "print"; "property"; "range"; "repr"; "reversed"; "round"; "set";
   "setattr"; "slice"; "sorted"; "staticmethod"; "str"; "sum"; "super";
   "tuple"; "type"; "vars"; "zip"; "__import__";
   "True"; "False"; "None"; "NotImplemented"; "Ellipsis"; "__debug__";
   "BaseException"; "Exception"; "ArithmeticError"; "AssertionError";
   "AttributeError"; "BlockingIOError"; "BrokenPipeError"; "BufferError";
   "ChildProcessError"; "ConnectionError"; "EOFError"; "FileExistsError";
   "FileNotFoundError"; "FloatingPointError"; "GeneratorExit";
   "ImportError"; "IndentationError"; "IndexError"; "InterruptedError";
   "IsADirectoryError"; "KeyError"; "KeyboardInterrupt"; "LookupError";
   "MemoryError"; "ModuleNotFoundError"; "NameError";
   "NotADirectoryError"; "NotImplementedError"; "OSError"; "OverflowError";
   "PermissionError"; "ProcessLookupError"; "RecursionError";
   "ReferenceError"; "RuntimeError"; "StopAsyncIteration"; "StopIteration";
   "SyntaxError"; "SystemError"; "SystemExit"; "TabError"; "TimeoutError";
   "TypeError"; "UnboundLocalError"; "UnicodeDecodeError";
   "UnicodeEncodeError"; "UnicodeError"; "UnicodeTranslateError";
   "ValueError"; "ZeroDivisionError"; "Warning"; "DeprecationWarning";
   "FutureWarning"; "ImportWarning"; "ResourceWarning"; "RuntimeWarning";
   "SyntaxWarning"; "UnicodeWarning"; "UserWarning"].

Definition builtin (n : string) : option value :=
  if bool_decide (n ∈ builtin_names) then Some (VLib ("builtins." +:+ n))
  else None.

(** The modules the source imports (lines 2-8) and the members it takes from
    them. *)
Definition importable : list string :=
  ["hashlib"; "json"; "time"; "dataclasses"; "typing"; "numpy"; "scipy"].

Definition library : list (string * (string * value)) :=
  [("dataclasses", ("dataclass", VLib "dataclasses.dataclass"));
   ("typing", ("Dict", VLib "typing.Dict"));
   ("typing", ("List", VLib "typing.List"));
   ("typing", ("Any", VLib "typing.Any"));
   ("typing", ("Optional", VLib "typing.Optional"));
   ("numpy", ("ndarray", VLib "numpy.ndarray"));
   ("scipy", ("signal", VModule "scipy.signal"))].

Definition member (m n : string) : option value :=
  (snd ∘ snd) <$>
    List.find (fun e => bool_decide (e.1 = m) && bool_decide (e.2.1 = n)) library.

(** The subscriptable generics of [typing] the source imports. *)
Definition generic (q : string) : bool :=
  bool_decide (q ∈ ["typing.Dict"; "typing.List"; "typing.Optional"]).

(** ** State *)

Definition with_globals (g : gmap string value) (s : state) : state :=
  {| globals := g; classes := classes s; heap := heap s |}.
Definition with_classes (c : gmap string class_obj) (s : state) : state :=
  {| globals := globals s; classes := c; heap := heap s |}.
Definition with_heap (h : gmap nat cell) (s : state) : state :=
  {| globals := globals s; classes := classes s; heap := h |}.

(** A name in a function body that is not a local: module globals, then
    builtins. *)
Definition lookup_global (s : state) (n : string) : option value :=
  match globals s !! n with
  | Some v => Some v
  | None => builtin n
  end.

(** A name in a class body or at module level: the local namespace first. *)
Definition lookup_name (locals : list (string * value)) (s : state)
    (n : string) : option value :=
  match assoc n locals with
  | Some v => Some v
  | None => lookup_global s n
  end.

(** An attribute found on the class of [self]: a function becomes a bound
    method. *)
Definition class_attr (s : state) (c : string) (n : string) (self : value)
    : option value :=
  match classes s !! c with
  | Some co =>
      match assoc n (c_dict co) with
      | Some (VFunc q) => Some (VMethod q self)
      | r => r
      end
  | None => None
  end.

(** [o.n].  An address without a cell is a bare [object()]: it has no
    attribute of its own. *)
Definition get_attr (s : state) (o : value) (n : string) : option value :=
  match o with
  | VObj a =>
      match heap s !! a with
      | Some (Instance c attrs) =>
          match attrs !! n with
          | Some v => Some v
          | None => class_attr s c n o
          end
      | _ => None
      end
  | VClass c =>
      match classes s !! c with
      | Some co => assoc n (c_dict co)
      | None => None
      end
  | VModule m => member m n
  | _ => None
  end.

(** Whether instances of class [c] accept an attribute [n]: a class with
    [__slots__] (and no [__dict__]) accepts the slot names only. *)
Definition accepts (s : state) (c : string) (n : string) : bool :=
  match classes s !! c with
  | Some co =>
      match c_slots co with
      | Some slots => bool_decide (n ∈ slots)
      | None => true
      end
  | None => true
  end.

(** [o.n = v]; [None] stands for [AttributeError]. *)
Definition set_attr (s : state) (o : value) (n : string) (v : value)
    : option state :=
  match o with
  | VObj a =>
      match heap s !! a with
      | Some (Instance c attrs) =>
          if accepts s c n
          then Some (with_heap (<[a := Instance c (<[n := v]> attrs)]> (heap s)) s)
          else None
      | _ => None
      end
  | _ => None
  end.

(** ** Classes *)

Definition slot_names (v : value) : option (list string) :=
  match v with
  | VList xs =>
      mapM (fun x => match x with VStr n => Some n | _ => None end) xs
  | _ => None
  end.

(** The class statement's call of [type]: the class body's namespace becomes
    the class dictionary; [__slots__], when the body binds it, fixes the
    attributes of instances, and a slot that is also bound in the body is
    refused. *)
Definition build_class (name : string) (annotations ns : list (string * value))
    (s : state) : outcome :=
  let define slots :=
    with_classes
      (<[name := {| c_annotations := annotations; c_slots := slots;
                    c_dict := ns; c_fields := None |}]> (classes s)) s in
  match assoc "__slots__" ns with
  | Some v =>
      match slot_names v with
      | Some slots =>
          if existsb (fun n => bool_decide (n ∈ ns.*1)) slots
          then Err ValueError s
          else Ok (VClass name) (define (Some slots))
      | None => Err TypeError s
      end
  | None => Ok (VClass name) (define None)
  end.

(** [dataclasses.dataclass] applied bare to a class, as on line 10: one field
    per annotation, in the order of the class body, with the class attribute
    of the same name as its default; a field without default may not follow
    one with a default.  Of what the decorator adds to the class, the model
    keeps the generated [__init__], as [c_fields]. *)
Definition dataclass_fields (co : class_obj) : list (string * option value) :=
  map (fun f => (f.1, assoc f.1 (c_dict co))) (c_annotations co).

Fixpoint defaults_last (fs : list (string * option value)) : bool :=
  match fs with
  | [] => true
  | (_, Some _) :: fs' => forallb (fun f => bool_decide (is_Some f.2)) fs'
  | (_, None) :: fs' => defaults_last fs'
  end.

Definition apply_dataclass (args : list value) (kwargs : list (string * value))
    (s : state) : outcome :=
  match args, kwargs with
  | [VClass c], [] =>
      match classes s !! c with
      | Some co =>
          let fs := dataclass_fields co in
          if defaults_last fs
          then Ok (VClass c)
                 (with_classes
                    (<[c := {| c_annotations := c_annotations co;
                               c_slots := c_slots co; c_dict := c_dict co;
                               c_fields := Some fs |}]> (classes s)) s)
          else Err TypeError s
      | None => Err TypeError s
      end
  | _, _ => Err TypeError s
  end.

(** The body of a generated [__init__]: [self.f = f] for each field. *)
Fixpoint store_all (s : state) (o : value) (bs : list (string * value))
    : outcome :=
  match bs with
  | [] => Ok VNone s
  | (n, v) :: bs' =>
      match set_attr s o n v with
      | Some s' => store_all s' o bs'
      | None => Err (AttributeError n) s
      end
  end.

(** ** The interpreter *)

Section Interpreter.

(** What calling an object from outside the module does. *)
Variable foreign :
  value -> list value -> list (string * value) -> state -> outcome.

Section Step.

(** How the body of a called function is run. *)
Variable exec : prog -> state -> outcome.

Definition call_function (q : string) (args : list value)
    (kwargs : list (string * value)) (s : state) : outcome :=
  match assoc q functions with
  | Some (params, body) =>
      match bind_args (map (fun p => (p, None)) params) args kwargs with
      | Some bs => exec (body bs) s
      | None => Err TypeError s
      end
  | None => Err TypeError s
  end.

(** [C(args)]: a new instance, then [__init__]. *)
Definition instantiate (c : string) (args : list value)
    (kwargs : list (string * value)) (s : state) : outcome :=
  match classes s !! c with
  | Some co =>
      let a := fresh (dom (heap s)) in
      let s1 := with_heap (<[a := Instance c ∅]> (heap s)) s in
      match c_fields co with
      | Some fields =>
          match bind_args fields args kwargs with
          | Some bs =>
              match store_all s1 (VObj a) bs with
              | Ok _ s2 => Ok (VObj a) s2
              | r => r
              end
          | None => Err TypeError s1
          end
      | None =>
          match assoc "__init__" (c_dict co) with
          | Some (VFunc q) =>
              match call_function q (VObj a :: args) kwargs s1 with
              | Ok _ s2 => Ok (VObj a) s2
              | r => r
              end
          | _ =>
              match args, kwargs with
              | [], [] => Ok (VObj a) s1
              | _, _ => Err TypeError s1
              end
          end
      end
  | None => Err TypeError s
  end.

Definition call_value (f : value) (args : list value)
    (kwargs : list (string * value)) (s : state) : outcome :=
  match f with
  | VFunc q => call_function q args kwargs s
  | VMethod q self => call_function q (self :: args) kwargs s
  | VClass c => instantiate c args kwargs s
  | VLib q =>
      if bool_decide (q = "dataclasses.dataclass")
      then apply_dataclass args kwargs s
      else foreign f args kwargs s
  | VObj _ | VAlias _ _ => foreign f args kwargs s
  | VNone | VFloat _ | VStr _ | VList _ | VModule _ => Err TypeError s
  end.

Definition do_op (o : op) (s : state) : outcome :=
  match o with
  | LoadGlobal n =>
      match lookup_global s n with
      | Some v => Ok v s
      | None => Err (NameError n) s
      end
  | LoadName locals n =>
      match lookup_name locals s n with
      | Some v => Ok v s
      | None => Err (NameError n) s
      end
  | StoreGlobal n v => Ok VNone (with_globals (<[n := v]> (globals s)) s)
  | LoadAttr o n =>
      match get_attr s o n with
      | Some v => Ok v s
      | None => Err (AttributeError n) s
      end
  | StoreAttr o n v =>
      match set_attr s o n v with
      | Some s' => Ok VNone s'
      | None => Err (AttributeError n) s
      end
  | Subscript o k =>
      match o, k with
      | VLib q, _ => if generic q then Ok (VAlias q k) s else Err TypeError s
      | VObj a, VStr key =>
          match heap s !! a with
          | Some (Mapping items) =>
              match items !! key with
              | Some v => Ok v s
              | None => Err (KeyError key) s
              end
          | _ => Err TypeError s
          end
      | _, _ => Err TypeError s
      end
  | StoreSubscr o k v =>
      match o, k with
      | VObj a, VStr key =>
          match heap s !! a with
          | Some (Mapping items) =>
              Ok VNone (with_heap (<[a := Mapping (<[key := v]> items)]> (heap s)) s)
          | _ => Err TypeError s
          end
      | _, _ => Err TypeError s
      end
  | Call f args kwargs => call_value f args kwargs s
  | ImportModule m =>
      if bool_decide (m ∈ importable) then Ok (VModule m) s
      else Err (ImportError m) s
  | ImportFrom m n =>
      match member m n with
      | Some v => Ok v s
      | None => Err (ImportError n) s
      end
  | BuildClass name annotations ns => build_class name annotations ns s
  | Raise v => Err (Raised v) s
  end.

End Step.

(** [fuel] bounds the depth of nested calls of the module's functions. *)
Fixpoint run (fuel : nat) : prog -> state -> outcome :=
  fix go (p : prog) (s : state) {struct p} : outcome :=
    let exec := match fuel with
                | 0 => fun _ _ => OutOfFuel
                | S n => run n
                end in
    match p with
    | Ret v => Ok v s
    | Vis o k =>
        match do_op exec o s with
        | Ok v s' => go (k v) s'
        | r => r
        end
    | Try body handler k =>
        match go body s with
        | Ok v s' => go (k v) s'
        | Err e s' =>
            match go (handler e) s' with
            | Ok v s'' => go (k v) s''
            | r => r
            end
        | OutOfFuel => OutOfFuel
        end
    end.

End Interpreter.

(** ** The module's top-level statements *)

Definition import_as (m name : string) : prog :=
  v <- perform (ImportModule m) ;; store_global name v.

Definition from_import (m n : string) : prog :=
  v <- perform (ImportFrom m n) ;; store_global n v.

(** Lines 10-64.  The decorator expression is evaluated first, then the class
    body: the six annotations in order (a quoted annotation is a string
    constant), [__slots__], and the two [def] statements, whose only
    annotations are quoted. *)
Definition class_QuantumEvidence : prog :=
  dataclass <- load_global "dataclass" ;;
  name <- load_global "__name__" ;;
  let ns := [("__module__", name);
             ("__qualname__", VStr "QuantumEvidence");
             ("__doc__", VStr "Evidence collected through quantum principles")] in
  let consciousness_state := VStr "ConsciousnessState" in
  List <- load_name ns "List" ;;
  reality_gaps <- subscript List (VStr "RealityGap") ;;
  List <- load_name ns "List" ;;
  cognitive_contradictions <- subscript List (VStr "CognitiveContradiction") ;;
  quantum_certainty <- load_name ns "float" ;;
  np <- load_name ns "np" ;;
  entanglement_correlation <- load_attr np "ndarray" ;;
  List <- load_name ns "List" ;;
  temporal_anomalies <- subscript List (VStr "TemporalAnomaly") ;;
  let annotations :=
    [("consciousness_state", consciousness_state);
     ("reality_gaps", reality_gaps);
     ("cognitive_contradictions", cognitive_contradictions);
     ("quantum_certainty", quantum_certainty);
     ("entanglement_correlation", entanglement_correlation);
     ("temporal_anomalies", temporal_anomalies)] in
  let ns := ns ++
    [("__slots__",
        VList [VStr "consciousness_state"; VStr "reality_gaps";
               VStr "cognitive_contradictions"; VStr "quantum_certainty";
               VStr "entanglement_correlation"; VStr "temporal_anomalies"]);
     ("to_report", VFunc "QuantumEvidence.to_report");
     ("analyze_consciousness", VFunc "QuantumEvidence.analyze_consciousness")] in
  cls <- perform (BuildClass "QuantumEvidence" annotations ns) ;;
  cls <- call dataclass [cls] [] ;;
  store_global "QuantumEvidence" cls.

(** Lines 66-124.  [__init__] has no annotation.  The [def] of
    [collect_evidence] evaluates its annotations, parameters first and the
    return annotation last: ['TargetSystem'] is a constant,
    [CollectionParams] and [QuantumEvidence] are names. *)
Definition class_QuantumEvidenceCollector : prog :=
  name <- load_global "__name__" ;;
  let ns := [("__module__", name);
             ("__qualname__", VStr "QuantumEvidenceCollector");
             ("__doc__", VStr "Collects evidence using quantum principles");
             ("__init__", VFunc "QuantumEvidenceCollector.__init__")] in
  load_name ns "CollectionParams" ;;
  load_name ns "QuantumEvidence" ;;
  let ns := ns ++
    [("collect_evidence", VFunc "QuantumEvidenceCollector.collect_evidence")] in
  cls <- perform (BuildClass "QuantumEvidenceCollector" [] ns) ;;
  store_global "QuantumEvidenceCollector" cls.

(** Lines 126-189.  Both [def] statements evaluate unquoted annotations:
    [QuantumEvidence], [ReportFormat], [Report], then [ConsciousnessState],
    [ReportSection]. *)
Definition class_QuantumReportGenerator : prog :=
  name <- load_global "__name__" ;;
  let ns := [("__module__", name);
             ("__qualname__", VStr "QuantumReportGenerator");
             ("__doc__", VStr "Generates quantum evidence reports")] in
  load_name ns "QuantumEvidence" ;;
  load_name ns "ReportFormat" ;;
  load_name ns "Report" ;;
  let ns := ns ++
    [("generate_report", VFunc "QuantumReportGenerator.generate_report")] in
  load_name ns "ConsciousnessState" ;;
  load_name ns "ReportSection" ;;
  let ns := ns ++
    [("generate_consciousness_section",
        VFunc "QuantumReportGenerator.generate_consciousness_section")] in
  cls <- perform (BuildClass "QuantumReportGenerator" [] ns) ;;
  store_global "QuantumReportGenerator" cls.

(** Lines 2-8. *)
Definition imports : prog :=
  import_as "hashlib" "hashlib" ;;
  import_as "json" "json" ;;
  import_as "time" "time" ;;
  from_import "dataclasses" "dataclass" ;;
  from_import "typing" "Dict" ;;
  from_import "typing" "List" ;;
  from_import "typing" "Any" ;;
  from_import "typing" "Optional" ;;
  import_as "numpy" "np" ;;
  from_import "scipy" "signal".

(** The module, lines 2-189. *)
Definition module_body : prog :=
  imports ;;
  class_QuantumEvidence ;;
  class_QuantumEvidenceCollector ;;
  class_QuantumReportGenerator.

(** The store in which the module starts to run, under the name [name] it
    is imported by. *)
Definition initial_state (name : string) : state :=
  {| globals := {["__name__" := VStr name]}; classes := ∅; heap := ∅ |}.

(** The names the top-level statements bind, and the module attributes the
    interpreter sets before the first statement. *)
Definition module_names : list string :=
  ["hashlib"; "json"; "time"; "dataclass"; "Dict"; "List"; "Any";
   "Optional"; "np"; "signal";
   "QuantumEvidence"; "QuantumEvidenceCollector"; "QuantumReportGenerator";
   "__name__"; "__doc__"; "__package__"; "__loader__"; "__spec__";
   "__file__"; "__cached__"; "__builtins__"].

(** A store whose globals are globals of this module: every name bound in
    it is one of [module_names] (no other code has added names to the
    module's namespace). *)
Definition module_namespace (s : state) : Prop :=
  map_Forall (fun n _ => n ∈ module_names) (globals s).

(** ** What the statements are about *)

(** The class object the class statement of lines 10-64 and its decorator
    produce. *)
Definition QuantumEvidence_class (name : string) : class_obj :=
  {| c_annotations :=
       [("consciousness_state", VStr "ConsciousnessState");
        ("reality_gaps", VAlias "typing.List" (VStr "RealityGap"));
        ("cognitive_contradictions",
           VAlias "typing.List" (VStr "CognitiveContradiction"));
        ("quantum_certainty", VLib "builtins.float");
        ("entanglement_correlation", VLib "numpy.ndarray");
        ("temporal_anomalies", VAlias "typing.List" (VStr "TemporalAnomaly"))];
     c_slots := Some QuantumEvidence.field_names;
     c_dict :=
       [("__module__", VStr name);
        ("__qualname__", VStr "QuantumEvidence");
        ("__doc__", VStr "Evidence collected through quantum principles");
        ("__slots__", VList (map VStr QuantumEvidence.field_names));
        ("to_report", VFunc "QuantumEvidence.to_report");
        ("analyze_consciousness", VFunc "QuantumEvidence.analyze_consciousness")];
     c_fields := Some (map (fun f => (f, None)) QuantumEvidence.field_names) |}.

(** The store in which the module's execution stops: the names of the
    imports and [QuantumEvidence] are bound, one class exists, and nothing
    is allocated. *)
Definition imported (name : string) : state :=
  {| globals :=
       list_to_map
         [("__name__", VStr name);
          ("hashlib", VModule "hashlib"); ("json", VModule "json");
          ("time", VModule "time");
          ("dataclass", VLib "dataclasses.dataclass");
          ("Dict", VLib "typing.Dict"); ("List", VLib "typing.List");
          ("Any", VLib "typing.Any"); ("Optional", VLib "typing.Optional");
          ("np", VModule "numpy"); ("signal", VModule "scipy.signal");
          ("QuantumEvidence", VClass "QuantumEvidence")];
     classes := {["QuantumEvidence" := QuantumEvidence_class name]};
     heap := ∅ |}.

(** A store with the globals and the classes the module's execution leaves,
    and any heap. *)
Definition loaded (name : string) (s : state) : Prop :=
  globals s = globals (imported name) /\ classes s = classes (imported name).

(** The thirteen type names the source uses without defining them. *)
Definition undefined_types : list string :=
  ["ConsciousnessState"; "RealityGap"; "CognitiveContradiction";
   "TemporalAnomaly"; "QuantumObserver"; "RealityMonitor";
   "ConsciousnessProbe"; "ObservationMode"; "TargetSystem";
   "CollectionParams"; "ReportFormat"; "Report"; "ReportSection"].

(** A name that neither the module nor [builtins] binds. *)
Definition unbound_name (n : string) : bool :=
  bool_decide (n ∉ module_names) && bool_decide (n ∉ builtin_names).

(** A failed name lookup or attribute lookup. *)
Definition lookup_failure (e : exn) : Prop :=
  match e with
  | NameError _ | AttributeError _ => True
  | _ => False
  end.

(** How [run] runs the body of a called function. *)
Definition callee (foreign : value -> list value -> list (string * value) -> state -> outcome)
    (fuel : nat) : prog -> state -> outcome :=
  match fuel with
  | 0 => fun _ _ => OutOfFuel
  | S n => run foreign n
  end.

(** The modules the source imports on lines 2-4. *)
Definition unused_modules : list string := ["hashlib"; "json"; "time"].

(** What the body of a function of the module may do itself: look up a
    global other than the three modules [hashlib], [json] and [time], read or
    assign an attribute, assign an item, and call. *)
Definition body_shape (sh : shape) : bool :=
  match sh with
  | SLoadGlobal n => bool_decide (n ∉ unused_modules)
  | SLoadAttr _ | SStoreAttr _ | SStoreSubscr | SCall _ _ => true
  | _ => false
  end.

(** The store after a call of [QuantumEvidence] on the values [vs] in [s]:
    one new instance whose attributes are the fields, each with the value
    passed for it. *)
Definition new_instance (s : state) (vs : list value) : state :=
  with_heap
    (<[fresh (dom (heap s)) :=
         Instance "QuantumEvidence"
           (list_to_map (zip QuantumEvidence.field_names vs))]> (heap s)) s.

(** The binary64 float 1.5, a certainty outside the interval from 0 to 1. *)
Definition one_and_a_half : spec_float := S754_finite false 6755399441055744 (-52).

(** A store for examples: the module's globals and classes, an object of an
    outside class with the three attributes [__init__] would set, and an
    observer with an [observe] attribute. *)
Definition sample_store : state :=
  with_heap
    (<[0 := Instance "Harness"
              (list_to_map [("quantum_observer", VObj 1);
                            ("reality_monitor", VObj 2);
                            ("consciousness_probe", VObj 3)])]>
       (<[1 := Instance "Observer" {["observe" := VLib "lab.observe"]}]> ∅))
    (imported "evidence.experimental_evidence").

(** Six values for the fields; the fourth is not in the unit interval and
    the fifth is not an array. *)
Definition sample_values : list value :=
  [VNone; VList []; VList [VStr "contradiction"]; VFloat one_and_a_half;
   VStr "not an array"; VList []].

(** An answer for calls of outside objects. *)
Definition sample_foreign (f : value) (args : list value)
    (kwargs : list (string * value)) (s : state) : outcome := Ok VNone s.

#[global] Instance module_namespace_dec s : Decision (module_namespace s).
Proof. unfold module_namespace. apply _. Defined.

#[global] Instance shape_eq_dec : EqDecision shape.
Proof. solve_decision. Defined.


(** ** Further definitions: the other two classes *)

(** The first of [names] that is neither a global nor a builtin. *)
Fixpoint first_unbound (s : state) (names : list string) : option string :=
  match names with
  | [] => None
  | n :: rest =>
      match lookup_global s n with
      | None => Some n
      | Some _ => first_unbound s rest
      end
  end.

(** The unquoted annotations of the [def] statements of
    [QuantumEvidenceCollector] (line 75) and of [QuantumReportGenerator]
    (lines 129-130 and 161), in the order they are evaluated. *)
Definition collector_annotations : list string :=
  ["CollectionParams"; "QuantumEvidence"].
Definition generator_annotations : list string :=
  ["QuantumEvidence"; "ReportFormat"; "Report"; "ConsciousnessState";
   "ReportSection"].

(** The class objects the class statements of lines 66-124 and 126-189
    build, in a module whose [__name__] is [name]. *)
Definition QuantumEvidenceCollector_class (name : value) : class_obj :=
  {| c_annotations := [];
     c_slots := None;
     c_dict :=
       [("__module__", name);
        ("__qualname__", VStr "QuantumEvidenceCollector");
        ("__doc__", VStr "Collects evidence using quantum principles");
        ("__init__", VFunc "QuantumEvidenceCollector.__init__");
        ("collect_evidence", VFunc "QuantumEvidenceCollector.collect_evidence")];
     c_fields := None |}.

Definition QuantumReportGenerator_class (name : value) : class_obj :=
  {| c_annotations := [];
     c_slots := None;
     c_dict :=
       [("__module__", name);
        ("__qualname__", VStr "QuantumReportGenerator");
        ("__doc__", VStr "Generates quantum evidence reports");
        ("generate_report", VFunc "QuantumReportGenerator.generate_report");
        ("generate_consciousness_section",
           VFunc "QuantumReportGenerator.generate_consciousness_section")];
     c_fields := None |}.

(** The store after a class statement: the class exists and its name is
    bound to it. *)
Definition define_class (n : string) (co : class_obj) (s : state) : state :=
  with_globals (<[n := VClass n]> (globals s))
    (with_classes (<[n := co]> (classes s)) s).

(** The store after allocating a new, attribute-less instance of [c]. *)
Definition allocated (c : string) (s : state) : state :=
  with_heap (<[fresh (dom (heap s)) := Instance c ∅]> (heap s)) s.

(** Every instance of [QuantumEvidence] in the store has attributes among
    the six fields only. *)
Definition slots_respected (s : state) : Prop :=
  forall a attrs n,
    heap s !! a = Some (Instance "QuantumEvidence" attrs) ->
    is_Some (attrs !! n) -> n ∈ QuantumEvidence.field_names.

(** The operations whose effect on the store the module itself fixes: all
    but class creation and calls, and among the calls the construction of a
    [QuantumEvidence]. *)
Definition fixed_operation (o : op) : Prop :=
  match o with
  | Call f _ _ => f = VClass "QuantumEvidence"
  | BuildClass _ _ _ => False
  | _ => True
  end.

(** A call of the constructor of [QuantumEvidence] fits its signature when
    it passes at most six positional arguments and its keywords name exactly
    the fields the positional arguments leave over. *)
Definition fits (args : list value) (kwargs : list (string * value)) : Prop :=
  length args <= 6
  /\ (forall k, k ∈ kwargs.*1 -> k ∈ drop (length args) QuantumEvidence.field_names)
  /\ (forall f, f ∈ drop (length args) QuantumEvidence.field_names -> f ∈ kwargs.*1).

(** Stores and answers for examples.  [defined_store]: the store where the
    module stops, with the other two classes created as their class
    statements build them.  [annotated_store]: the store where the module
    stops, with the names of the unquoted annotations bound from outside. *)
Definition defined_store : state :=
  define_class "QuantumReportGenerator"
    (QuantumReportGenerator_class (VStr "evidence.experimental_evidence"))
    (define_class "QuantumEvidenceCollector"
       (QuantumEvidenceCollector_class (VStr "evidence.experimental_evidence"))
       (imported "evidence.experimental_evidence")).

Definition annotated_store : state :=
  with_globals
    (<["CollectionParams" := VLib "lab.CollectionParams"]>
       (<["ReportFormat" := VLib "lab.ReportFormat"]>
          (<["Report" := VLib "lab.Report"]>
             (<["ConsciousnessState" := VLib "lab.ConsciousnessState"]>
                (<["ReportSection" := VLib "lab.ReportSection"]>
                   (globals (imported "evidence.experimental_evidence")))))))
    (imported "evidence.experimental_evidence").

(** [lab_store]: the three classes, the names [QuantumReport],
    [ConsciousnessAnalysis], [ObservationMode], [Report] and [ReportSection]
    bound from outside, and a heap with a collector (0) and its observer
    (1), monitor (2) and probe (3), the observation modes (4), a target (5),
    collection parameters (6), an evidence (7), a generator (8) and an
    object with an [add_subsection] attribute (9). *)
Definition lab_store : state :=
  with_heap
    (list_to_map
       [(0, Instance "QuantumEvidenceCollector"
              (list_to_map [("quantum_observer", VObj 1);
                            ("reality_monitor", VObj 2);
                            ("consciousness_probe", VObj 3)]));
        (1, Instance "Observer" {["observe" := VLib "lab.observe"]});
        (2, Instance "Monitor" {["detect_gaps" := VLib "lab.detect_gaps"]});
        (3, Instance "Probe" {["probe" := VLib "lab.probe"]});
        (4, Instance "Modes" {["NON_DEMOLITION" := VStr "non-demolition"]});
        (5, Instance "Target"
              (list_to_map [("consciousness", VStr "awake");
                            ("reality_model", VStr "flat")]));
        (6, Instance "Params" {["probe_depth" := VStr "deep"]});
        (7, Instance "QuantumEvidence"
              (list_to_map (zip QuantumEvidence.field_names sample_values)));
        (8, Instance "QuantumReportGenerator" ∅);
        (9, Instance "Section" {["add_subsection" := VLib "lab.add_subsection"]})])
    (with_globals
       (<["QuantumReport" := VLib "lab.QuantumReport"]>
          (<["ConsciousnessAnalysis" := VLib "lab.ConsciousnessAnalysis"]>
             (<["ObservationMode" := VObj 4]>
                (<["Report" := VLib "lab.Report"]>
                   (<["ReportSection" := VLib "lab.ReportSection"]>
                      (globals defined_store))))))
       defined_store).

(** Every outside call answers with object 9 and changes nothing. *)
Definition lab_foreign (f : value) (args : list value)
    (kwargs : list (string * value)) (s : state) : outcome := Ok (VObj 9) s.

(** [slots_respected], cell by cell. *)
Definition cell_respects_slots (c : cell) : Prop :=
  match c with
  | Instance cls attrs =>
      cls = "QuantumEvidence" ->
      map_Forall (fun n _ => n ∈ QuantumEvidence.field_names) attrs
  | Mapping _ => True
  end.

#[global] Instance cell_respects_slots_dec c : Decision (cell_respects_slots c).
Proof. destruct c; cbn; apply _. Defined.

(** ** Running programs *)

Lemma run_ret foreign fuel v s : run foreign fuel (Ret v) s = Ok v s.
Proof. destruct fuel; reflexivity. Qed.

Lemma run_vis foreign fuel o k s :
  run foreign fuel (Vis o k) s =
  match do_op foreign (callee foreign fuel) o s with
  | Ok v s' => run foreign fuel (k v) s'
  | r => r
  end.
Proof. destruct fuel; reflexivity. Qed.

Lemma unbound s n :
  module_namespace s -> unbound_name n = true -> lookup_global s n = None.
Proof.
  intros Hs Hn. apply andb_prop in Hn as [Hm Hb].
  apply bool_decide_eq_true in Hm, Hb.
  unfold lookup_global, builtin.
  destruct (globals s !! n) as [v|] eqn:E.
  - destruct Hm. exact (Hs n v E).
  - rewrite bool_decide_eq_false_2; [reflexivity | exact Hb].
Qed.

Lemma load_global_unbound foreign fuel s n k :
  module_namespace s -> unbound_name n = true ->
  run foreign fuel (Vis (LoadGlobal n) k) s = Err (NameError n) s.
Proof.
  intros Hs Hn. rewrite run_vis. cbn [do_op].
  rewrite (unbound s n Hs Hn). reflexivity.
Qed.

Lemma imported_namespace name s : loaded name s -> module_namespace s.
Proof.
  intros [Hg _]. unfold module_namespace. rewrite Hg.
  apply map_Forall_to_list.
  set (l := map_to_list _). vm_compute in l. subst l.
  repeat (apply Forall_cons; split; [apply (bool_decide_unpack _); vm_compute; exact I|]).
  constructor.
Qed.

Lemma with_heap_id s : with_heap (heap s) s = s.
Proof. destruct s; reflexivity. Qed.

Lemma store_all_accepts bs : forall s a c attrs,
  heap s !! a = Some (Instance c attrs) ->
  Forall (fun b => accepts s c b.1 = true) bs ->
  store_all s (VObj a) bs =
  Ok VNone (with_heap (<[a := Instance c (foldl (fun m b => <[b.1 := b.2]> m) attrs bs)]> (heap s)) s).
Proof.
  induction bs as [|[n v] bs IH]; intros s a c attrs Ha Hbs.
  - cbn. rewrite insert_id by exact Ha. by rewrite with_heap_id.
  - apply Forall_cons in Hbs as [Hn Hbs]. cbn in Hn.
    cbn [store_all set_attr]. rewrite Ha, Hn.
    rewrite (IH _ a c (<[n := v]> attrs)).
    + cbn. unfold with_heap; cbn. by rewrite insert_insert_eq.
    + cbn. apply lookup_insert_eq.
    + exact Hbs.
Qed.


Lemma bind_positional_long fields : forall args,
  length fields < length args -> bind_positional fields args = None.
Proof.
  induction fields as [|[f d] fields IH]; intros [|a args] Hl; cbn in *; try lia.
  - reflexivity.
  - rewrite IH; [reflexivity | lia].
Qed.


Lemma run_try foreign fuel b h k s :
  run foreign fuel (Try b h k) s =
  match run foreign fuel b s with
  | Ok v s' => run foreign fuel (k v) s'
  | Err e s' =>
      match run foreign fuel (h e) s' with
      | Ok v s'' => run foreign fuel (k v) s''
      | r => r
      end
  | OutOfFuel => OutOfFuel
  end.
Proof. destruct fuel; reflexivity. Qed.

(** Running [p] and then [f] is running [bind p f]. *)
Lemma run_bind foreign fuel p : forall f s,
  run foreign fuel (bind p f) s =
  match run foreign fuel p s with
  | Ok v s' => run foreign fuel (f v) s'
  | r => r
  end.
Proof.
  induction p as [v | o k IH | b IHb h IHh k IHk]; intros f s; cbn [bind].
  - by rewrite run_ret.
  - rewrite !run_vis.
    destruct (do_op foreign (callee foreign fuel) o s); [apply IH | done | done].
  - rewrite !run_try.
    destruct (run foreign fuel b s) as [v s'|e s'|]; [apply IHk | | done].
    destruct (run foreign fuel (h e) s'); [apply IHk | done | done].
Qed.

Lemma follows_step o k sh l :
  shape_of o = sh -> (forall v, follows l (k v)) -> follows (sh :: l) (Vis o k).
Proof. intros <-. apply follows_vis. Qed.

(** Finds the list of shapes a program follows by going through it. *)
Ltac follow :=
  repeat (cbn;
          first [apply follows_ret
                | eapply follows_step; [cbn; reflexivity | intros ?]]).

Lemma bodies_follow q params body :
  assoc q functions = Some (params, body) ->
  exists l, (forall bs, follows l (body bs)) /\ forallb body_shape l = true.
Proof.
  unfold functions. cbn [assoc].
  repeat (case_decide as Hq; [clear Hq; intros [= <- <-] | clear Hq]);
    [..|discriminate].
  all: eexists; split; [intros bs; follow | reflexivity].
Qed.

(** In a store of the module, the outcome of a body is an error fixed by the
    store and the arguments alone, and the store is left as it was. *)
Lemma bodies_fail s q params body bs :
  module_namespace s ->
  assoc q functions = Some (params, body) ->
  exists e, lookup_failure e /\
    forall foreign fuel, run foreign fuel (body bs) s = Err e s.
Proof.
  intros Hs. unfold functions. cbn [assoc].
  repeat (case_decide as Hq; [clear Hq; intros [= <- <-] | clear Hq]);
    [..|discriminate].
  all: try (eexists; split; [|intros foreign fuel;
              apply load_global_unbound; [exact Hs | reflexivity]]; exact I).
  unfold QuantumEvidenceCollector.collect_evidence.
  cbn [bind load_attr perform].
  destruct (get_attr s (arg bs "self") "quantum_observer") as [observer|] eqn:Eo.
  2:{ eexists; split; [|intros foreign fuel; rewrite run_vis; cbn [do_op];
                        rewrite Eo; reflexivity]. exact I. }
  destruct (get_attr s observer "observe") as [observe|] eqn:Ef.
  2:{ eexists; split; [|intros foreign fuel; rewrite run_vis; cbn [do_op];
                        rewrite Eo, run_vis; cbn [do_op]; rewrite Ef;
                        reflexivity]. exact I. }
  eexists; split; [|intros foreign fuel; rewrite run_vis; cbn [do_op];
                    rewrite Eo, run_vis; cbn [do_op]; rewrite Ef;
                    cbn [bind load_global perform];
                    apply load_global_unbound; [exact Hs | reflexivity]].
  exact I.
Qed.

Lemma loaded_class name s :
  loaded name s -> classes s !! "QuantumEvidence" = Some (QuantumEvidence_class name).
Proof. intros [_ ->]. apply lookup_singleton_eq. Qed.

Lemma accepts_field name s n :
  loaded name s ->
  accepts s "QuantumEvidence" n = bool_decide (n ∈ QuantumEvidence.field_names).
Proof. intros Hs. unfold accepts. by rewrite (loaded_class name s Hs). Qed.

Lemma loaded_with_heap name s h : loaded name s -> loaded name (with_heap h s).
Proof. intros [Hg Hc]. split; assumption. Qed.

Lemma six_values (args : list value) :
  length args = 6 -> exists v1 v2 v3 v4 v5 v6, args = [v1; v2; v3; v4; v5; v6].
Proof.
  intros H. do 6 (destruct args as [|? args]; [discriminate|]).
  destruct args; [|discriminate]. by repeat eexists.
Qed.

(** Six positional arguments: the constructor returns a new instance that
    holds them. *)
Lemma construct foreign exec name s args :
  loaded name s -> length args = 6 ->
  call_value foreign exec (VClass "QuantumEvidence") args [] s =
  Ok (VObj (fresh (dom (heap s)))) (new_instance s args).
Proof.
  intros Hs Hl. destruct (six_values args Hl) as (v1&v2&v3&v4&v5&v6&->).
  cbn [call_value]. unfold instantiate.
  rewrite (loaded_class name s Hs). cbn [c_fields QuantumEvidence_class].
  set (a := fresh (dom (heap s))).
  set (s1 := with_heap _ s).
  assert (Hs1 : loaded name s1) by (by apply loaded_with_heap).
  set (bs := bind_args _ _ _). vm_compute in bs. subst bs.
  cbv beta iota. rewrite (store_all_accepts _ s1 a "QuantumEvidence" ∅).
  - cbn [foldl fst snd]. unfold new_instance, s1, with_heap; cbn.
    rewrite insert_insert_eq. reflexivity.
  - apply lookup_insert_eq.
  - repeat (apply Forall_cons; split;
            [cbn [fst]; rewrite (accepts_field name s1 _ Hs1); reflexivity|]).
    constructor.
Qed.




Lemma run_call foreign fuel f args kwargs s :
  run foreign fuel (call f args kwargs) s =
  call_value foreign (callee foreign fuel) f args kwargs s.
Proof.
  unfold call, perform. rewrite run_vis. cbn [do_op].
  destruct (call_value _ _ _ _ _ _); [apply run_ret | done | done].
Qed.

(** Attribute lookup on a new instance: its fields first, then the class
    dictionary. *)
Lemma new_instance_get name s args n :
  loaded name s ->
  get_attr (new_instance s args) (VObj (fresh (dom (heap s)))) n =
  match (list_to_map (zip QuantumEvidence.field_names args) : gmap string value) !! n with
  | Some v => Some v
  | None =>
      match assoc n (c_dict (QuantumEvidence_class name)) with
      | Some (VFunc q) => Some (VMethod q (VObj (fresh (dom (heap s)))))
      | r => r
      end
  end.
Proof.
  intros Hs. cbn [get_attr new_instance with_heap heap].
  rewrite lookup_insert_eq. unfold class_attr, new_instance, with_heap.
  cbn [classes].
  by rewrite (loaded_class name s Hs).
Qed.

Lemma new_instance_fields name s args i f :
  loaded name s -> length args = 6 ->
  QuantumEvidence.field_names !! i = Some f ->
  get_attr (new_instance s args) (VObj (fresh (dom (heap s)))) f = args !! i.
Proof.
  intros Hs Hl Hi. rewrite (new_instance_get name s args f Hs).
  destruct (six_values args Hl) as (v1&v2&v3&v4&v5&v6&->).
  do 6 (destruct i as [|i]; [injection Hi as <-; reflexivity|]).
  discriminate.
Qed.

(** ** C1 *)

(** C1. In a store whose globals are the module's, every public method
    ([to_report], [analyze_consciousness], [collect_evidence],
    [generate_report], [generate_consciousness_section]) fails, on every
    instance and input and with any fuel, with a [NameError] or an
    [AttributeError] and leaves the store as it was; and no call of a
    function of the module, with whatever arguments, returns a value. *)
Theorem public_methods_fail foreign fuel s
    self target collection_params evidence report_format st :
  module_namespace s ->
  run foreign fuel (QuantumEvidence.to_report self) s
    = Err (NameError "QuantumReport") s
  /\ run foreign fuel (QuantumEvidence.analyze_consciousness self) s
    = Err (NameError "ConsciousnessAnalysis") s
  /\ (exists e,
        run foreign fuel
          (QuantumEvidenceCollector.collect_evidence self target collection_params) s
          = Err e s
        /\ e ∈ [AttributeError "quantum_observer"; AttributeError "observe";
                NameError "ObservationMode"])
  /\ run foreign fuel
       (QuantumReportGenerator.generate_report self evidence report_format) s
    = Err (NameError "Report") s
  /\ run foreign fuel
       (QuantumReportGenerator.generate_consciousness_section self st) s
    = Err (NameError "ReportSection") s
  /\ (forall q args kwargs v s',
        run foreign fuel (call (VFunc q) args kwargs) s <> Ok v s').
Proof.
  intros Hs.
  repeat apply conj; try (apply load_global_unbound; [exact Hs | reflexivity]).
  - unfold QuantumEvidenceCollector.collect_evidence.
    cbn [bind load_attr perform]. rewrite run_vis. cbn [do_op].
    destruct (get_attr s self "quantum_observer") as [observer|].
    2:{ eexists; split; [reflexivity | set_solver]. }
    rewrite run_vis. cbn [do_op].
    destruct (get_attr s observer "observe") as [observe|].
    2:{ eexists; split; [reflexivity | set_solver]. }
    cbn [bind load_global perform].
    rewrite load_global_unbound; [| exact Hs | reflexivity].
    eexists; split; [reflexivity | set_solver].
  - intros q args kwargs v s'. rewrite run_call. cbn [call_value].
    unfold call_function.
    destruct (assoc q functions) as [[params body]|] eqn:E; [|done].
    destruct (bind_args _ _ _) as [bs|]; [|done].
    destruct fuel as [|fuel]; cbn [callee]; [done|].
    destruct (bodies_fail s q params body bs Hs E) as (e & _ & ->).
    done.
Qed.

Lemma public_methods_fail_witness :
  module_namespace sample_store /\
  run sample_foreign 2 (QuantumEvidence.to_report (VObj 0)) sample_store
    = Err (NameError "QuantumReport") sample_store /\
  exists e,
    run sample_foreign 2
      (QuantumEvidenceCollector.collect_evidence (VObj 0) VNone VNone) sample_store
      = Err e sample_store
    /\ e ∈ [AttributeError "quantum_observer"; AttributeError "observe";
            NameError "ObservationMode"].
Proof.
  assert (H : module_namespace sample_store)
    by (apply (bool_decide_unpack _); vm_compute; exact I).
  split; [exact H|].
  destruct (public_methods_fail sample_foreign 2 sample_store
              (VObj 0) VNone VNone VNone VNone VNone H)
    as (H1 & _ & H3 & _).
  split; [exact H1 | exact H3].
Defined.

(** ** C2 *)

(** The imports and the class statement of [QuantumEvidence] succeed. *)
Lemma module_prefix foreign fuel name :
  run foreign fuel (imports ;; class_QuantumEvidence) (initial_state name)
  = Ok VNone (imported name).
Proof. destruct fuel; vm_compute; reflexivity. Qed.

(** The class statement of [QuantumEvidenceCollector] stops at the
    annotation [CollectionParams], in every store of the module in which
    [__name__] is bound. *)
Lemma collector_statement_fails foreign fuel s :
  module_namespace s -> is_Some (globals s !! "__name__") ->
  run foreign fuel class_QuantumEvidenceCollector s
  = Err (NameError "CollectionParams") s.
Proof.
  intros Hs [v Hv]. unfold class_QuantumEvidenceCollector.
  cbn [bind load_global load_name perform].
  rewrite run_vis. cbn [do_op]. unfold lookup_global at 1. rewrite Hv.
  rewrite run_vis. cbn [do_op]. unfold lookup_name. cbn [assoc].
  repeat (case_decide; [discriminate|]).
  by rewrite (unbound s "CollectionParams" Hs).
Qed.

(** The class statement of [QuantumReportGenerator], were it reached, stops
    at the annotation [ReportFormat]. *)
Lemma generator_statement_fails foreign fuel s :
  module_namespace s -> is_Some (globals s !! "__name__") ->
  globals s !! "QuantumEvidence" = Some (VClass "QuantumEvidence") ->
  run foreign fuel class_QuantumReportGenerator s
  = Err (NameError "ReportFormat") s.
Proof.
  intros Hs [v Hv] Hq. unfold class_QuantumReportGenerator.
  cbn [bind load_global load_name perform].
  rewrite run_vis. cbn [do_op]. unfold lookup_global at 1. rewrite Hv.
  rewrite run_vis. cbn [do_op]. unfold lookup_name at 1. cbn [assoc].
  repeat (case_decide; [discriminate|]).
  unfold lookup_global at 1. rewrite Hq.
  rewrite run_vis. cbn [do_op]. unfold lookup_name. cbn [assoc].
  repeat (case_decide; [discriminate|]).
  by rewrite (unbound s "ReportFormat" Hs).
Qed.

(** C2. Executing the module fails: the [def] of [collect_evidence] in the
    class body of [QuantumEvidenceCollector] evaluates the annotation
    [CollectionParams] and raises [NameError]; execution stops there, with
    neither [QuantumEvidenceCollector] nor [QuantumReportGenerator] bound or
    created.  The class statement of [QuantumReportGenerator] would stop
    likewise, at [ReportFormat]; [Report] is unbound as well. *)
Theorem module_execution_fails foreign fuel name :
  run foreign fuel module_body (initial_state name)
    = Err (NameError "CollectionParams") (imported name)
  /\ globals (imported name) !! "QuantumEvidenceCollector" = None
  /\ globals (imported name) !! "QuantumReportGenerator" = None
  /\ classes (imported name) !! "QuantumEvidenceCollector" = None
  /\ classes (imported name) !! "QuantumReportGenerator" = None
  /\ run foreign fuel class_QuantumReportGenerator (imported name)
    = Err (NameError "ReportFormat") (imported name)
  /\ lookup_global (imported name) "Report" = None.
Proof.
  assert (Hs : module_namespace (imported name))
    by (apply (imported_namespace name); split; reflexivity).
  assert (Hn : is_Some (globals (imported name) !! "__name__"))
    by (eexists; reflexivity).
  repeat apply conj; [| reflexivity.. | |].
  - unfold module_body. rewrite run_bind.
    pose proof (module_prefix foreign fuel name) as Hp.
    rewrite run_bind in Hp.
    destruct (run foreign fuel imports (initial_state name)) as [v s1| |];
      [|discriminate..].
    rewrite run_bind, Hp, run_bind.
    by rewrite collector_statement_fails.
  - by apply generator_statement_fails.
  - by apply unbound.
Qed.

(** ** C3 *)

Lemma undefined_types_unbound n :
  n ∈ undefined_types -> unbound_name n = true.
Proof.
  unfold undefined_types. intros H.
  repeat (apply elem_of_cons in H as [->|H]; [reflexivity|]).
  by apply elem_of_nil in H.
Qed.

(** C3. None of the thirteen type names is bound by a statement of the
    module or by [builtins]; so in a store whose globals are the module's,
    every operation that evaluates one of them, in a function body or in a
    class body whose namespace does not bind it, raises [NameError] for that
    name, whatever would follow.  [QuantumEvidenceCollector.__init__] fails so
    at [QuantumObserver], and [collect_evidence], once [self.quantum_observer]
    and its [observe] are found, at [ObservationMode]. *)
Theorem undefined_types_raise_NameError foreign fuel s n k :
  module_namespace s -> n ∈ undefined_types ->
  (n ∉ module_names) /\ (n ∉ builtin_names)
  /\ run foreign fuel (Vis (LoadGlobal n) k) s = Err (NameError n) s
  /\ (forall locals, assoc n locals = None ->
        run foreign fuel (Vis (LoadName locals n) k) s = Err (NameError n) s)
  /\ (forall self,
        run foreign fuel (QuantumEvidenceCollector.__init__ self) s
        = Err (NameError "QuantumObserver") s)
  /\ (forall self target collection_params observer observe,
        get_attr s self "quantum_observer" = Some observer ->
        get_attr s observer "observe" = Some observe ->
        run foreign fuel
          (QuantumEvidenceCollector.collect_evidence self target collection_params) s
        = Err (NameError "ObservationMode") s).
Proof.
  intros Hs Hn. pose proof (undefined_types_unbound n Hn) as Hu.
  pose proof Hu as Hu'. apply andb_prop in Hu' as [Hm Hb].
  apply bool_decide_eq_true in Hm, Hb.
  repeat apply conj; [exact Hm | exact Hb | | | |].
  - by apply load_global_unbound.
  - intros locals Hl. rewrite run_vis. cbn [do_op]. unfold lookup_name.
    by rewrite Hl, (unbound s n Hs Hu).
  - intros self. by apply load_global_unbound.
  - intros self target collection_params observer observe Ho Hf.
    unfold QuantumEvidenceCollector.collect_evidence.
    cbn [bind load_attr perform]. rewrite run_vis. cbn [do_op]. rewrite Ho.
    rewrite run_vis. cbn [do_op]. rewrite Hf.
    cbn [bind load_global perform]. by apply load_global_unbound.
Qed.

Lemma undefined_types_raise_NameError_witness :
  (module_namespace sample_store /\ "ObservationMode" ∈ undefined_types) /\
  run sample_foreign 0
    (QuantumEvidenceCollector.collect_evidence (VObj 0) VNone VNone) sample_store
  = Err (NameError "ObservationMode") sample_store.
Proof.
  assert (H : module_namespace sample_store)
    by (apply (bool_decide_unpack _); vm_compute; exact I).
  assert (Hn : "ObservationMode" ∈ undefined_types)
    by (apply (bool_decide_unpack _); vm_compute; exact I).
  split; [exact (conj H Hn)|].
  refine (proj2 (proj2 (proj2 (proj2 (proj2
            (undefined_types_raise_NameError sample_foreign 0 sample_store
               "ObservationMode" Ret H Hn)))))
          (VObj 0) VNone VNone (VObj 1) (VLib "lab.observe") _ _);
    reflexivity.
Defined.

(** ** C4 *)



(** ** C5 *)

(** C5, as stated, fails: the module declares neither [Report] nor
    [ReportSection]; where its execution stops both names are unbound, and
    [generate_report] raises [NameError] at [Report()]. *)
Lemma Report_is_not_declared :
  lookup_global (imported "evidence.experimental_evidence") "Report" = None
  /\ lookup_global (imported "evidence.experimental_evidence") "ReportSection" = None
  /\ run sample_foreign 1
       (Report <- load_global "Report" ;; call Report [] [])
       (imported "evidence.experimental_evidence")
     = Err (NameError "Report") (imported "evidence.experimental_evidence")
  /\ run sample_foreign 1
       (QuantumReportGenerator.generate_report VNone VNone VNone)
       (imported "evidence.experimental_evidence")
     = Err (NameError "Report") (imported "evidence.experimental_evidence").
Proof.
  assert (Hs : module_namespace (imported "evidence.experimental_evidence"))
    by (apply (bool_decide_unpack _); vm_compute; exact I).
  repeat apply conj.
  - by apply unbound.
  - by apply unbound.
  - by apply load_global_unbound.
  - by apply load_global_unbound.
Qed.

(** C5, amended. [Report] and [ReportSection] are not declared in the
    source: no statement of the module binds them and they are no builtins.
    They are only used by [QuantumReportGenerator]: in a store whose globals
    are the module's, [Report()] and [ReportSection(title=...)] raise
    [NameError], so [generate_report] and [generate_consciousness_section]
    fail at their first statement and leave the store as it was; no
    [sections] mapping is read and no [add_subsection] is called. *)
Theorem Report_and_ReportSection_are_unbound foreign fuel s
    self evidence report_format st :
  module_namespace s ->
  ("Report" ∉ module_names ++ builtin_names)
  /\ ("ReportSection" ∉ module_names ++ builtin_names)
  /\ run foreign fuel (Report <- load_global "Report" ;; call Report [] []) s
     = Err (NameError "Report") s
  /\ run foreign fuel
       (ReportSection <- load_global "ReportSection" ;;
        call ReportSection [] [("title", VStr "System Consciousness Analysis")]) s
     = Err (NameError "ReportSection") s
  /\ run foreign fuel
       (QuantumReportGenerator.generate_report self evidence report_format) s
     = Err (NameError "Report") s
  /\ run foreign fuel
       (QuantumReportGenerator.generate_consciousness_section self st) s
     = Err (NameError "ReportSection") s.
Proof.
  intros Hs.
  repeat apply conj;
    [apply (bool_decide_unpack _); vm_compute; exact I .. | | | |].
  all: apply load_global_unbound; [exact Hs | reflexivity].
Qed.

Lemma Report_and_ReportSection_are_unbound_witness :
  module_namespace sample_store /\
  run sample_foreign 3
    (QuantumReportGenerator.generate_consciousness_section (VObj 0) VNone)
    sample_store
  = Err (NameError "ReportSection") sample_store.
Proof.
  assert (H : module_namespace sample_store)
    by (apply (bool_decide_unpack _); vm_compute; exact I).
  split; [exact H|].
  exact (proj2 (proj2 (proj2 (proj2 (proj2
           (Report_and_ReportSection_are_unbound sample_foreign 3 sample_store
              (VObj 0) VNone VNone VNone H)))))).
Defined.

(** ** C6 *)

(** C6. No function of the module raises or catches an exception itself: each
    body is a fixed sequence of lookups, attribute and item accesses and
    calls, with no [raise] and no [try].  The generated constructor of
    [QuantumEvidence] checks none of its arguments: it accepts any six
    values, stores each as passed, and so takes any value as
    [quantum_certainty]. *)
Theorem no_error_handling_or_validation foreign fuel name s args :
  loaded name s -> length args = 6 ->
  (forall q params body bs,
     assoc q functions = Some (params, body) ->
     exists l, follows l (body bs) /\ SRaise ∉ l)
  /\ exists a s',
       run foreign fuel (call (VClass "QuantumEvidence") args []) s = Ok (VObj a) s'
       /\ get_attr s' (VObj a) "quantum_certainty" = args !! 3
       /\ forall i f, QuantumEvidence.field_names !! i = Some f ->
                      get_attr s' (VObj a) f = args !! i.
Proof.
  intros Hs Hl. split.
  - intros q params body bs E.
    destruct (bodies_follow q params body E) as (l & Hf & Hb).
    exists l. split; [exact (Hf bs)|]. intros Hin.
    rewrite forallb_forall in Hb. apply list_elem_of_In, Hb in Hin. discriminate.
  - exists (fresh (dom (heap s))), (new_instance s args).
    rewrite run_call, (construct _ _ name s args Hs Hl).
    split; [reflexivity|]. split.
    + by apply (new_instance_fields name s args 3).
    + intros i f. by apply (new_instance_fields name).
Qed.

Lemma no_error_handling_or_validation_witness :
  (loaded "evidence.experimental_evidence" sample_store /\ length sample_values = 6) /\
  SFcompare one_and_a_half (S754_finite false 4503599627370496 (-52)) = Some Gt /\
  exists a s',
    run sample_foreign 0 (call (VClass "QuantumEvidence") sample_values []) sample_store
      = Ok (VObj a) s'
    /\ get_attr s' (VObj a) "quantum_certainty" = Some (VFloat one_and_a_half).
Proof.
  assert (H : loaded "evidence.experimental_evidence" sample_store)
    by (split; reflexivity).
  assert (Hl : length sample_values = 6) by reflexivity.
  split; [exact (conj H Hl)|]. split; [reflexivity|].
  destruct (proj2 (no_error_handling_or_validation sample_foreign 0
              "evidence.experimental_evidence" sample_store sample_values H Hl))
    as (a & s' & Hr & Hc & _).
  exists a, s'. split; [exact Hr | exact Hc].
Defined.

(** ** C7 *)




(** ** C8 *)

(** C8. Every function body of the module is straight-line code: whatever
    its inputs and whatever the operations answer, it performs one fixed
    sequence of lookups, attribute and item accesses and calls, without
    [try], [raise], import or any operation outside these.  Its outcome in a
    store of the module is a function of the store and the arguments: two
    runs, whatever outside calls would answer in each and whatever the fuel,
    end alike. *)
Theorem bodies_straight_line_deterministic q params body :
  assoc q functions = Some (params, body) ->
  (exists l, (forall bs, follows l (body bs)) /\ forallb body_shape l = true)
  /\ forall bs s foreign1 foreign2 fuel1 fuel2,
       module_namespace s ->
       run foreign1 fuel1 (body bs) s = run foreign2 fuel2 (body bs) s.
Proof.
  intros E. split.
  - by apply (bodies_follow q params).
  - intros bs s foreign1 foreign2 fuel1 fuel2 Hs.
    destruct (bodies_fail s q params body bs Hs E) as (e & _ & Hr).
    by rewrite !Hr.
Qed.

Lemma bodies_straight_line_deterministic_witness :
  assoc "QuantumEvidenceCollector.collect_evidence" functions
    = Some (["self"; "target"; "collection_params"],
            fun bs => QuantumEvidenceCollector.collect_evidence
                        (arg bs "self") (arg bs "target") (arg bs "collection_params"))
  /\ forall foreign fuel,
       run foreign fuel
         (QuantumEvidenceCollector.collect_evidence (VObj 0) VNone VNone) sample_store
       = run sample_foreign 0
           (QuantumEvidenceCollector.collect_evidence (VObj 0) VNone VNone) sample_store.
Proof.
  assert (E : assoc "QuantumEvidenceCollector.collect_evidence" functions
    = Some (["self"; "target"; "collection_params"],
            fun bs => QuantumEvidenceCollector.collect_evidence
                        (arg bs "self") (arg bs "target") (arg bs "collection_params")))
    by reflexivity.
  split; [exact E|]. intros foreign fuel.
  refine (proj2 (bodies_straight_line_deterministic _ _ _ E)
            [("self", VObj 0); ("target", VNone); ("collection_params", VNone)]
            sample_store foreign sample_foreign fuel 0 _).
  apply (bool_decide_unpack _). vm_compute. exact I.
Defined.

(** ** C9 *)

(** C9. The module imports [hashlib], [json] and [time] and then never reads
    these names again: neither a top-level statement nor a function body
    looks one of them up, so no function of these libraries is called.  The
    operations of a function body are lookups, attribute and item accesses
    and calls only, and every run of a body in a store of the module stops
    with the store exactly as it was: nothing is assigned, allocated or
    bound, and no outside object is called. *)
Theorem no_external_interface q params body :
  assoc q functions = Some (params, body) ->
  (exists l, follows l module_body
     /\ forall m, m ∈ unused_modules ->
          SImportModule m ∈ l /\ (SLoadGlobal m ∉ l) /\ (SLoadName m ∉ l))
  /\ (exists l, (forall bs, follows l (body bs)) /\ forallb body_shape l = true)
  /\ forall bs s foreign fuel,
       module_namespace s ->
       exists e, run foreign fuel (body bs) s = Err e s
                 /\ run foreign fuel (body bs) s
                    = run (fun _ _ _ s0 => Err TypeError s0) fuel (body bs) s.
Proof.
  intros E. repeat apply conj.
  - eexists. split; [unfold module_body, imports; follow|].
    intros m Hm. unfold unused_modules in Hm.
    repeat (apply elem_of_cons in Hm as [->|Hm];
            [repeat apply conj; apply (bool_decide_unpack _); vm_compute; exact I|]).
    by apply elem_of_nil in Hm.
  - by apply (bodies_follow q params).
  - intros bs s foreign fuel Hs.
    destruct (bodies_fail s q params body bs Hs E) as (e & _ & Hr).
    exists e. by rewrite !Hr.
Qed.

Lemma no_external_interface_witness :
  assoc "QuantumReportGenerator.generate_report" functions
    = Some (["self"; "evidence"; "report_format"],
            fun bs => QuantumReportGenerator.generate_report
                        (arg bs "self") (arg bs "evidence") (arg bs "report_format"))
  /\ exists l,
       (forall bs,
          follows l (QuantumReportGenerator.generate_report
                       (arg bs "self") (arg bs "evidence") (arg bs "report_format")))
       /\ forallb body_shape l = true.
Proof.
  assert (E : assoc "QuantumReportGenerator.generate_report" functions
    = Some (["self"; "evidence"; "report_format"],
            fun bs => QuantumReportGenerator.generate_report
                        (arg bs "self") (arg bs "evidence") (arg bs "report_format")))
    by reflexivity.
  split; [exact E|].
  exact (proj1 (proj2 (no_external_interface _ _ _ E))).
Defined.

(** ** C10 *)



(** ** Further properties *)

Lemma load_name_outcome foreign fuel s locals n k :
  assoc n locals = None ->
  run foreign fuel (Vis (LoadName locals n) k) s =
  match lookup_global s n with
  | Some v => run foreign fuel (k v) s
  | None => Err (NameError n) s
  end.
Proof.
  intros Hl. rewrite run_vis. cbn [do_op]. unfold lookup_name. rewrite Hl.
  by destruct (lookup_global s n).
Qed.

Lemma load_global_outcome foreign fuel s n k :
  run foreign fuel (Vis (LoadGlobal n) k) s =
  match lookup_global s n with
  | Some v => run foreign fuel (k v) s
  | None => Err (NameError n) s
  end.
Proof. rewrite run_vis. cbn [do_op]. by destruct (lookup_global s n). Qed.

Lemma load_global_outcome_none foreign fuel s n k :
  lookup_global s n = None ->
  run foreign fuel (Vis (LoadGlobal n) k) s = Err (NameError n) s.
Proof. intros H. by rewrite load_global_outcome, H. Qed.

Lemma build_class_plain name annotations ns s :
  assoc "__slots__" ns = None ->
  build_class name annotations ns s =
  Ok (VClass name)
    (with_classes
       (<[name := {| c_annotations := annotations; c_slots := None;
                     c_dict := ns; c_fields := None |}]> (classes s)) s).
Proof. intros H. unfold build_class. by rewrite H. Qed.

(** X1. The class statement of [QuantumEvidenceCollector] (lines 66-124)
    evaluates two names for the annotations of [collect_evidence], first
    [CollectionParams] and then [QuantumEvidence]; the quoted annotation
    ['TargetSystem'] is not evaluated.  In any store it raises [NameError]
    for the first of the two that is unbound and changes nothing; with both
    bound it creates the class, with [__init__] and [collect_evidence] in its
    dictionary and no [__slots__], and binds its name. *)
Theorem collector_statement_outcome foreign fuel s nm :
  globals s !! "__name__" = Some nm ->
  run foreign fuel class_QuantumEvidenceCollector s =
  match first_unbound s collector_annotations with
  | Some n => Err (NameError n) s
  | None =>
      Ok VNone (define_class "QuantumEvidenceCollector"
                  (QuantumEvidenceCollector_class nm) s)
  end.
Proof.
  intros Hn. unfold class_QuantumEvidenceCollector.
  cbn [bind load_global load_name perform].
  rewrite load_global_outcome. unfold lookup_global at 1. rewrite Hn.
  rewrite load_name_outcome by reflexivity.
  cbn [first_unbound collector_annotations].
  destruct (lookup_global s "CollectionParams"); [|reflexivity].
  rewrite load_name_outcome by reflexivity.
  destruct (lookup_global s "QuantumEvidence"); [|reflexivity].
  rewrite run_vis. cbn [do_op]. rewrite build_class_plain by reflexivity.
  unfold store_global, perform. rewrite run_vis. cbn [do_op].
  rewrite run_ret. reflexivity.
Qed.

(** X2. The class statement of [QuantumReportGenerator] (lines 126-189)
    evaluates five names for the annotations of its two [def]s, in the order
    [QuantumEvidence], [ReportFormat], [Report], [ConsciousnessState],
    [ReportSection].  In any store it raises [NameError] for the first one
    that is unbound and changes nothing; with all five bound it creates the
    class, whose dictionary has the two methods and no [__init__], and binds
    its name. *)
Theorem generator_statement_outcome foreign fuel s nm :
  globals s !! "__name__" = Some nm ->
  run foreign fuel class_QuantumReportGenerator s =
  match first_unbound s generator_annotations with
  | Some n => Err (NameError n) s
  | None =>
      Ok VNone (define_class "QuantumReportGenerator"
                  (QuantumReportGenerator_class nm) s)
  end.
Proof.
  intros Hn. unfold class_QuantumReportGenerator.
  cbn [bind load_global load_name perform].
  rewrite load_global_outcome. unfold lookup_global at 1. rewrite Hn.
  cbn [first_unbound generator_annotations].
  do 5 (rewrite load_name_outcome by reflexivity;
        match goal with
        | |- context [lookup_global s ?n] =>
            destruct (lookup_global s n); [|reflexivity]
        end).
  rewrite run_vis. cbn [do_op]. rewrite build_class_plain by reflexivity.
  unfold store_global, perform. rewrite run_vis. cbn [do_op].
  rewrite run_ret. reflexivity.
Qed.

Lemma lookup_global_with_heap s h n :
  lookup_global (with_heap h s) n = lookup_global s n.
Proof. reflexivity. Qed.

(** Calling a function of the module with arguments that fit runs its
    body. *)
Lemma call_function_body foreign fuel q params body args kwargs bs s :
  assoc q functions = Some (params, body) ->
  bind_args (map (fun p => (p, None)) params) args kwargs = Some bs ->
  call_function (callee foreign (S fuel)) q args kwargs s
  = run foreign fuel (body bs) s.
Proof. intros E B. unfold call_function. by rewrite E, B. Qed.

Lemma call_function_misfit exec q params body args kwargs s :
  assoc q functions = Some (params, body) ->
  bind_args (map (fun p => (p, None)) params) args kwargs = None ->
  call_function exec q args kwargs s = Err TypeError s.
Proof. intros E B. unfold call_function. by rewrite E, B. Qed.

(** Only [self] is a parameter of [__init__]: any argument of the class call
    is one too many. *)
Lemma self_only_misfit (self : value) args kwargs :
  args <> [] \/ kwargs <> [] ->
  bind_args [("self", None)] (self :: args) kwargs = None.
Proof.
  intros [H|H].
  - destruct args as [|a args]; [done|]. reflexivity.
  - destruct args as [|a args]; [|reflexivity].
    destruct kwargs as [|[k v] kwargs]; [done|]. reflexivity.
Qed.

Lemma collector_init nm :
  assoc "__init__" (c_dict (QuantumEvidenceCollector_class nm))
  = Some (VFunc "QuantumEvidenceCollector.__init__").
Proof. reflexivity. Qed.

(** X3. Where the class [QuantumEvidenceCollector] exists and
    [QuantumObserver] is unbound, no collector can be constructed:
    [QuantumEvidenceCollector()] allocates the instance, enters [__init__]
    (one nested call, so with no fuel the model runs out) and fails with
    [NameError] at [QuantumObserver] before any attribute is set; with any
    argument the call fails with [TypeError], since [__init__] takes [self]
    only. *)
Theorem collector_construction_fails foreign fuel s nm args kwargs :
  classes s !! "QuantumEvidenceCollector"
    = Some (QuantumEvidenceCollector_class nm) ->
  lookup_global s "QuantumObserver" = None ->
  run foreign (S fuel) (call (VClass "QuantumEvidenceCollector") [] []) s
    = Err (NameError "QuantumObserver") (allocated "QuantumEvidenceCollector" s)
  /\ run foreign 0 (call (VClass "QuantumEvidenceCollector") [] []) s = OutOfFuel
  /\ (args <> [] \/ kwargs <> [] ->
      run foreign fuel (call (VClass "QuantumEvidenceCollector") args kwargs) s
      = Err TypeError (allocated "QuantumEvidenceCollector" s)).
Proof.
  intros Hc Hq. repeat apply conj.
  - rewrite run_call. cbn [call_value]. unfold instantiate. rewrite Hc.
    cbn [c_fields QuantumEvidenceCollector_class]. rewrite collector_init.
    erewrite (call_function_body foreign fuel
                "QuantumEvidenceCollector.__init__" ["self"]
                (fun bs => QuantumEvidenceCollector.__init__ (arg bs "self")));
      [| reflexivity | reflexivity].
    unfold QuantumEvidenceCollector.__init__.
    cbn [bind load_global perform]. rewrite load_global_outcome.
    fold (allocated "QuantumEvidenceCollector" s).
    unfold allocated at 1. rewrite lookup_global_with_heap, Hq. reflexivity.
  - rewrite run_call. cbn [call_value]. unfold instantiate. rewrite Hc.
    reflexivity.
  - intros Ha. rewrite run_call. cbn [call_value]. unfold instantiate.
    rewrite Hc. cbn [c_fields QuantumEvidenceCollector_class].
    rewrite collector_init.
    rewrite (call_function_misfit _
               "QuantumEvidenceCollector.__init__" ["self"]
               (fun bs => QuantumEvidenceCollector.__init__ (arg bs "self")) _ _ _
               eq_refl (self_only_misfit _ args kwargs Ha)).
    reflexivity.
Qed.

Lemma generator_no_init nm :
  assoc "__init__" (c_dict (QuantumReportGenerator_class nm)) = None.
Proof. reflexivity. Qed.

(** A new instance has no attribute of its own: a name is found on it as far
    as the class dictionary has it. *)
Lemma allocated_get s c co n :
  classes s !! c = Some co ->
  get_attr (allocated c s) (VObj (fresh (dom (heap s)))) n
  = match assoc n (c_dict co) with
    | Some (VFunc q) => Some (VMethod q (VObj (fresh (dom (heap s)))))
    | r => r
    end.
Proof.
  intros Hc. cbn [get_attr allocated with_heap heap].
  rewrite lookup_insert_eq, lookup_empty. unfold class_attr, allocated, with_heap.
  cbn [classes]. by rewrite Hc.
Qed.

Lemma generator_construct foreign exec s nm :
  classes s !! "QuantumReportGenerator" = Some (QuantumReportGenerator_class nm) ->
  call_value foreign exec (VClass "QuantumReportGenerator") [] [] s
  = Ok (VObj (fresh (dom (heap s)))) (allocated "QuantumReportGenerator" s).
Proof.
  intros Hc. cbn [call_value]. unfold instantiate. rewrite Hc.
  cbn [c_fields QuantumReportGenerator_class]. by rewrite generator_no_init.
Qed.

(** X4. [QuantumReportGenerator] defines no [__init__]: where the class
    exists, [QuantumReportGenerator()] returns a new instance without
    attributes and any argument is a [TypeError].  The instance finds
    [generate_report] on its class: called with an evidence and a report
    format, and [Report] unbound, it raises [NameError] for [Report]; called
    without the report format, which the body never uses, it raises
    [TypeError]. *)
Theorem generator_instance_methods foreign fuel s nm evidence report_format
    args kwargs :
  classes s !! "QuantumReportGenerator" = Some (QuantumReportGenerator_class nm) ->
  lookup_global s "Report" = None ->
  run foreign fuel (call (VClass "QuantumReportGenerator") [] []) s
    = Ok (VObj (fresh (dom (heap s)))) (allocated "QuantumReportGenerator" s)
  /\ (args <> [] \/ kwargs <> [] ->
      run foreign fuel (call (VClass "QuantumReportGenerator") args kwargs) s
      = Err TypeError (allocated "QuantumReportGenerator" s))
  /\ run foreign (S fuel)
       (g <- call (VClass "QuantumReportGenerator") [] [] ;;
        m <- load_attr g "generate_report" ;;
        call m [evidence; report_format] []) s
     = Err (NameError "Report") (allocated "QuantumReportGenerator" s)
  /\ run foreign fuel
       (g <- call (VClass "QuantumReportGenerator") [] [] ;;
        m <- load_attr g "generate_report" ;;
        call m [evidence] []) s
     = Err TypeError (allocated "QuantumReportGenerator" s).
Proof.
  intros Hc Hr.
  assert (Hm : get_attr (allocated "QuantumReportGenerator" s)
                 (VObj (fresh (dom (heap s)))) "generate_report"
               = Some (VMethod "QuantumReportGenerator.generate_report"
                         (VObj (fresh (dom (heap s)))))).
  { by rewrite (allocated_get s _ _ _ Hc). }
  repeat apply conj.
  - rewrite run_call. by apply generator_construct with nm.
  - intros Ha. rewrite run_call. cbn [call_value]. unfold instantiate.
    rewrite Hc. cbn [c_fields QuantumReportGenerator_class].
    rewrite generator_no_init.
    destruct Ha as [Ha|Ha]; [destruct args | destruct args, kwargs]; done.
  - rewrite run_bind, run_call, (generator_construct _ _ s nm Hc).
    rewrite run_bind. unfold load_attr, perform. rewrite run_vis. cbn [do_op].
    rewrite Hm, run_ret, run_call. cbn [call_value].
    erewrite (call_function_body foreign fuel
                "QuantumReportGenerator.generate_report"
                ["self"; "evidence"; "report_format"]
                (fun bs => QuantumReportGenerator.generate_report
                             (arg bs "self") (arg bs "evidence")
                             (arg bs "report_format")));
      [| reflexivity | reflexivity].
    unfold QuantumReportGenerator.generate_report.
    cbn [bind load_global perform]. rewrite load_global_outcome.
    unfold allocated at 1. by rewrite lookup_global_with_heap, Hr.
  - rewrite run_bind, run_call, (generator_construct _ _ s nm Hc).
    rewrite run_bind. unfold load_attr, perform. rewrite run_vis. cbn [do_op].
    rewrite Hm, run_ret, run_call. cbn [call_value].
    erewrite (call_function_misfit _
                "QuantumReportGenerator.generate_report"
                ["self"; "evidence"; "report_format"]
                (fun bs => QuantumReportGenerator.generate_report
                             (arg bs "self") (arg bs "evidence")
                             (arg bs "report_format")));
      [reflexivity | reflexivity | reflexivity].
Qed.

(** X5. Constructing a [QuantumEvidence] from six values and calling
    [to_report()] or [analyze_consciousness()] on it finds the method on the
    class, runs its body (one nested call) and fails with [NameError] at
    [QuantumReport], respectively [ConsciousnessAnalysis]; the constructed
    instance stays in the store, unchanged.  An extra argument to
    [to_report] is a [TypeError]. *)
Theorem evidence_instance_methods foreign fuel name s args extra :
  loaded name s -> length args = 6 ->
  run foreign (S fuel)
    (e <- call (VClass "QuantumEvidence") args [] ;;
     m <- load_attr e "to_report" ;;
     call m [] []) s
  = Err (NameError "QuantumReport") (new_instance s args)
  /\ run foreign (S fuel)
       (e <- call (VClass "QuantumEvidence") args [] ;;
        m <- load_attr e "analyze_consciousness" ;;
        call m [] []) s
     = Err (NameError "ConsciousnessAnalysis") (new_instance s args)
  /\ run foreign fuel
       (e <- call (VClass "QuantumEvidence") args [] ;;
        m <- load_attr e "to_report" ;;
        call m [extra] []) s
     = Err TypeError (new_instance s args)
  /\ run foreign 0
       (e <- call (VClass "QuantumEvidence") args [] ;;
        m <- load_attr e "to_report" ;;
        call m [] []) s
     = OutOfFuel.
Proof.
  intros Hs Hl.
  pose proof (imported_namespace name s Hs) as Hn.
  assert (Hn' : module_namespace (new_instance s args)) by exact Hn.
  assert (Hm : forall n q,
            assoc n (c_dict (QuantumEvidence_class name)) = Some (VFunc q) ->
            (list_to_map (zip QuantumEvidence.field_names args) : gmap string value) !! n = None ->
            get_attr (new_instance s args) (VObj (fresh (dom (heap s)))) n
            = Some (VMethod q (VObj (fresh (dom (heap s)))))).
  { intros n q Hd Hf. by rewrite (new_instance_get name s args n Hs), Hf, Hd. }
  destruct (six_values args Hl) as (v1&v2&v3&v4&v5&v6&->).
  pose proof (Hm "to_report" _ eq_refl eq_refl) as Ht.
  pose proof (Hm "analyze_consciousness" _ eq_refl eq_refl) as Hac.
  repeat apply conj.
  all: rewrite run_bind, run_call, (construct _ _ name s _ Hs Hl);
       rewrite run_bind; unfold load_attr, perform; rewrite run_vis; cbn [do_op];
       rewrite ?Ht, ?Hac, run_ret, run_call; cbn [call_value].
  - erewrite (call_function_body foreign fuel "QuantumEvidence.to_report" ["self"]
                (fun bs => QuantumEvidence.to_report (arg bs "self")));
      [| reflexivity | reflexivity].
    apply load_global_unbound; [exact Hn' | reflexivity].
  - erewrite (call_function_body foreign fuel
                "QuantumEvidence.analyze_consciousness" ["self"]
                (fun bs => QuantumEvidence.analyze_consciousness (arg bs "self")));
      [| reflexivity | reflexivity].
    apply load_global_unbound; [exact Hn' | reflexivity].
  - erewrite (call_function_misfit _ "QuantumEvidence.to_report" ["self"]
                (fun bs => QuantumEvidence.to_report (arg bs "self")));
      [reflexivity | reflexivity | reflexivity].
  - reflexivity.
Qed.

Lemma accepts_QuantumEvidence name s n :
  classes s !! "QuantumEvidence" = Some (QuantumEvidence_class name) ->
  accepts s "QuantumEvidence" n = bool_decide (n ∈ QuantumEvidence.field_names).
Proof. intros Hc. unfold accepts. by rewrite Hc. Qed.

(** X6. The dataclass is not frozen: assigning a value to one of the six
    fields of a [QuantumEvidence] instance succeeds, reading the field
    afterwards gives that value, and every other attribute of the instance,
    every other object, the globals and the classes are as before. *)
Theorem field_assignment_round_trip foreign fuel name s a attrs f v :
  classes s !! "QuantumEvidence" = Some (QuantumEvidence_class name) ->
  heap s !! a = Some (Instance "QuantumEvidence" attrs) ->
  f ∈ QuantumEvidence.field_names ->
  exists s',
    run foreign fuel (store_attr (VObj a) f v) s = Ok VNone s'
    /\ run foreign fuel (load_attr (VObj a) f) s' = Ok v s'
    /\ (forall g, g <> f -> get_attr s' (VObj a) g = get_attr s (VObj a) g)
    /\ (forall b, b <> a -> heap s' !! b = heap s !! b)
    /\ globals s' = globals s /\ classes s' = classes s.
Proof.
  intros Hc Ha Hf.
  exists (with_heap (<[a := Instance "QuantumEvidence" (<[f := v]> attrs)]> (heap s)) s).
  repeat apply conj; try reflexivity.
  - unfold store_attr, perform. rewrite run_vis. cbn [do_op set_attr].
    rewrite Ha, (accepts_QuantumEvidence name s f Hc), bool_decide_eq_true_2 by done.
    by rewrite run_ret.
  - unfold load_attr, perform. rewrite run_vis. cbn [do_op get_attr with_heap heap].
    rewrite lookup_insert_eq, lookup_insert_eq. by rewrite run_ret.
  - intros g Hg. cbn [get_attr with_heap heap].
    rewrite lookup_insert_eq, Ha, lookup_insert_ne by done. reflexivity.
  - intros b Hb. cbn [with_heap heap]. by rewrite lookup_insert_ne.
Qed.

Lemma set_attr_keeps_slots name s o n v s' :
  classes s !! "QuantumEvidence" = Some (QuantumEvidence_class name) ->
  slots_respected s -> set_attr s o n v = Some s' ->
  slots_respected s' /\ classes s' = classes s /\ globals s' = globals s.
Proof.
  intros Hc Hs. destruct o; try discriminate. cbn [set_attr].
  destruct (heap s !! a) as [[c attrs|]|] eqn:Ha; try discriminate.
  destruct (accepts s c n) eqn:Hacc; [|discriminate].
  intros [= <-]. split; [|done].
  intros b attrs' m Hb Hm. cbn [with_heap heap] in Hb.
  destruct (decide (a = b)) as [->|Hne].
  - rewrite lookup_insert_eq in Hb. injection Hb as -> <-.
    rewrite (accepts_QuantumEvidence name s n Hc) in Hacc.
    apply bool_decide_eq_true in Hacc.
    destruct (decide (n = m)) as [->|Hnm]; [exact Hacc|].
    rewrite lookup_insert_ne in Hm by done. by apply (Hs b attrs m).
  - rewrite lookup_insert_ne in Hb by done. by apply (Hs b attrs' m).
Qed.

Lemma store_all_keeps_slots name bs : forall s o v s',
  classes s !! "QuantumEvidence" = Some (QuantumEvidence_class name) ->
  slots_respected s -> store_all s o bs = Ok v s' ->
  slots_respected s' /\ classes s' = classes s /\ globals s' = globals s.
Proof.
  induction bs as [|[n x] bs IH]; intros s o v s' Hc Hs; cbn [store_all].
  - by intros [= _ <-].
  - destruct (set_attr s o n x) as [s1|] eqn:E; [|discriminate].
    destruct (set_attr_keeps_slots name s o n x s1 Hc Hs E) as (Hs1 & Hc1 & Hg1).
    intros H. apply IH in H as (? & ? & ?); [|by rewrite Hc1|done].
    repeat split; [done|congruence|congruence].
Qed.

Lemma allocated_keeps_slots c s : slots_respected s -> slots_respected (allocated c s).
Proof.
  intros Hs a attrs n Ha Hn. cbn [allocated with_heap heap] in Ha.
  destruct (decide (fresh (dom (heap s)) = a)) as [<-|Hne].
  - rewrite lookup_insert_eq in Ha. injection Ha as _ <-.
    rewrite lookup_empty in Hn. by destruct Hn.
  - rewrite lookup_insert_ne in Ha by done. by apply (Hs a attrs n).
Qed.

(** X7. The slots hold as an invariant: if every [QuantumEvidence] instance
    in the store has attributes among the six fields only, this is still so
    after any successful lookup, import, attribute or item assignment,
    global assignment, or construction of a [QuantumEvidence], and the class
    is unchanged. *)
Theorem slots_are_kept foreign fuel name s o v s' :
  classes s !! "QuantumEvidence" = Some (QuantumEvidence_class name) ->
  slots_respected s ->
  fixed_operation o ->
  run foreign fuel (perform o) s = Ok v s' ->
  slots_respected s'
  /\ classes s' !! "QuantumEvidence" = Some (QuantumEvidence_class name).
Proof.
  intros Hc Hs Ho. unfold perform. rewrite run_vis.
  destruct (do_op foreign (callee foreign fuel) o s) as [v1 s1| |] eqn:E;
    [|discriminate..].
  rewrite run_ret. intros [= _ <-].
  destruct o; cbn [do_op fixed_operation] in E, Ho.
  - destruct (lookup_global s n); by simplify_eq.
  - destruct (lookup_name locals s n); by simplify_eq.
  - simplify_eq. done.
  - destruct (get_attr s o n); by simplify_eq.
  - destruct (set_attr s o n v0) as [s2|] eqn:E2; simplify_eq.
    destruct (set_attr_keeps_slots name s o n v0 s1 Hc Hs E2) as (? & -> & _).
    done.
  - destruct o; try by simplify_eq.
    + destruct k; try by simplify_eq.
      destruct (heap s !! a) as [[|items]|]; try by simplify_eq.
      destruct (items !! s0); by simplify_eq.
    + destruct (generic q); by simplify_eq.
  - destruct o; try by simplify_eq.
    destruct k; try by simplify_eq.
    destruct (heap s !! a) as [[|items]|] eqn:Ha; try by simplify_eq.
    simplify_eq. split; [|done].
    intros b attrs m Hb Hm. cbn [with_heap heap] in Hb.
    destruct (decide (a = b)) as [->|Hne].
    + by rewrite lookup_insert_eq in Hb.
    + rewrite lookup_insert_ne in Hb by done. by apply (Hs b attrs m).
  - subst f. cbn [call_value] in E. unfold instantiate in E.
    rewrite Hc in E. cbn [c_fields QuantumEvidence_class] in E.
    destruct (bind_args _ args kwargs) as [bs|]; [|discriminate].
    fold (allocated "QuantumEvidence" s) in E.
    destruct (store_all _ _ bs) as [v2 s2| |] eqn:E2; simplify_eq.
    destruct (store_all_keeps_slots name bs (allocated "QuantumEvidence" s)
                _ v2 s1 Hc (allocated_keeps_slots _ s Hs) E2) as (? & -> & _).
    done.
  - destruct (bool_decide _); by simplify_eq.
  - destruct (member m n); by simplify_eq.
  - done.
  - discriminate.
Qed.

(** On an instance of [QuantumEvidence] whose attributes are within its
    slots, a name that is no field is looked up in the class dictionary. *)
Lemma evidence_get name s a attrs n :
  classes s !! "QuantumEvidence" = Some (QuantumEvidence_class name) ->
  heap s !! a = Some (Instance "QuantumEvidence" attrs) ->
  slots_respected s ->
  n ∉ QuantumEvidence.field_names ->
  get_attr s (VObj a) n
  = match assoc n (c_dict (QuantumEvidence_class name)) with
    | Some (VFunc q) => Some (VMethod q (VObj a))
    | r => r
    end.
Proof.
  intros Hc Ha Hs Hn. cbn [get_attr]. rewrite Ha.
  destruct (attrs !! n) as [v|] eqn:E.
  - destruct Hn. apply (Hs a attrs n Ha). by eexists.
  - unfold class_attr. by rewrite Hc.
Qed.

Lemma analyze_consciousness_outcome foreign fuel name s s1 A analysis a attrs :
  lookup_global s "ConsciousnessAnalysis" = Some A ->
  run foreign fuel (call A [] []) s = Ok analysis s1 ->
  classes s1 !! "QuantumEvidence" = Some (QuantumEvidence_class name) ->
  heap s1 !! a = Some (Instance "QuantumEvidence" attrs) ->
  slots_respected s1 ->
  run foreign fuel (QuantumEvidence.analyze_consciousness (VObj a)) s
  = Err (AttributeError "extract_belief_system") s1.
Proof.
  intros HA Hcall Hc Ha Hs. unfold QuantumEvidence.analyze_consciousness.
  rewrite run_bind. unfold load_global at 1, perform.
  rewrite load_global_outcome, HA, run_ret.
  rewrite run_bind, Hcall.
  cbn [bind load_attr perform]. rewrite run_vis. cbn [do_op].
  rewrite (evidence_get name s1 a attrs _ Hc Ha Hs).
  - reflexivity.
  - apply (bool_decide_unpack _). vm_compute. exact I.
Qed.

(** X8. Supplying [ConsciousnessAnalysis] does not make
    [analyze_consciousness] work on a [QuantumEvidence]: once
    [ConsciousnessAnalysis()] has returned, the body looks up
    [self.extract_belief_system], which the class does not define and its
    slots keep off the instance, and fails with [AttributeError]; nothing is
    assigned to the analysis, so the store is the one
    [ConsciousnessAnalysis()] left. *)
Theorem analyze_consciousness_lacks_helpers
    foreign fuel name s s1 A analysis a attrs :
  lookup_global s "ConsciousnessAnalysis" = Some A ->
  run foreign fuel (call A [] []) s = Ok analysis s1 ->
  classes s1 !! "QuantumEvidence" = Some (QuantumEvidence_class name) ->
  heap s1 !! a = Some (Instance "QuantumEvidence" attrs) ->
  slots_respected s1 ->
  run foreign fuel (QuantumEvidence.analyze_consciousness (VObj a)) s
  = Err (AttributeError "extract_belief_system") s1.
Proof.
  intros HA Hcall Hc Ha Hs.
  exact (analyze_consciousness_outcome foreign fuel name s s1 A analysis a attrs
           HA Hcall Hc Ha Hs).
Qed.

(** X9. With [QuantumReport] supplied, [to_report] on a [QuantumEvidence]
    gets as far as its call of [self.analyze_consciousness()] and ends with
    the error of that call: [NameError] for [ConsciousnessAnalysis] if that
    name is unbound, [AttributeError] for [extract_belief_system] if it is
    supplied as well.  Nothing is assigned to the report: the store is the
    one the outside calls left. *)
Theorem to_report_stops_in_analyze_consciousness
    foreign fuel name s s1 R report a attrs :
  lookup_global s "QuantumReport" = Some R ->
  run foreign (S fuel) (call R [] []) s = Ok report s1 ->
  classes s1 !! "QuantumEvidence" = Some (QuantumEvidence_class name) ->
  heap s1 !! a = Some (Instance "QuantumEvidence" attrs) ->
  slots_respected s1 ->
  (lookup_global s1 "ConsciousnessAnalysis" = None ->
   run foreign (S fuel) (QuantumEvidence.to_report (VObj a)) s
   = Err (NameError "ConsciousnessAnalysis") s1)
  /\ (forall A analysis s2 attrs2,
        lookup_global s1 "ConsciousnessAnalysis" = Some A ->
        run foreign fuel (call A [] []) s1 = Ok analysis s2 ->
        classes s2 !! "QuantumEvidence" = Some (QuantumEvidence_class name) ->
        heap s2 !! a = Some (Instance "QuantumEvidence" attrs2) ->
        slots_respected s2 ->
        run foreign (S fuel) (QuantumEvidence.to_report (VObj a)) s
        = Err (AttributeError "extract_belief_system") s2).
Proof.
  intros HR Hcall Hc Ha Hs.
  assert (Hstart : forall r,
    run foreign fuel (QuantumEvidence.analyze_consciousness (VObj a)) s1 = r ->
    (forall v s', r <> Ok v s') ->
    run foreign (S fuel) (QuantumEvidence.to_report (VObj a)) s = r).
  { intros r Hr Hno. unfold QuantumEvidence.to_report.
    rewrite run_bind. unfold load_global at 1, perform.
    rewrite load_global_outcome, HR, run_ret.
    rewrite run_bind, Hcall.
    rewrite run_bind. unfold load_attr at 1, perform. rewrite run_vis.
    cbn [do_op].
    rewrite (evidence_get name s1 a attrs "analyze_consciousness" Hc Ha Hs)
      by (apply (bool_decide_unpack _); vm_compute; exact I).
    cbn [QuantumEvidence_class c_dict assoc].
    repeat (case_decide; [discriminate|]). case_decide; [|done].
    rewrite run_ret, run_bind, run_call. cbn [call_value].
    erewrite (call_function_body foreign fuel
                "QuantumEvidence.analyze_consciousness" ["self"]
                (fun bs => QuantumEvidence.analyze_consciousness (arg bs "self")));
      [| reflexivity | reflexivity].
    cbv beta. set (self := arg _ _). vm_compute in self. subst self.
    rewrite Hr.
    destruct r as [v s'| |]; [by destruct (Hno v s') | done | done]. }
  split.
  - intros HA. apply Hstart; [|done].
    apply load_global_outcome_none. exact HA.
  - intros A analysis s2 attrs2 HA HcallA Hc2 Ha2 Hs2. apply Hstart; [|done].
    exact (analyze_consciousness_outcome foreign fuel name s1 s2 A analysis a
             attrs2 HA HcallA Hc2 Ha2 Hs2).
Qed.

(** An instance of a class without [__slots__] lacks a name that neither the
    instance nor the class dictionary has. *)
Lemma instance_lacks s a c attrs co n :
  heap s !! a = Some (Instance c attrs) ->
  classes s !! c = Some co ->
  attrs !! n = None -> assoc n (c_dict co) = None ->
  get_attr s (VObj a) n = None.
Proof.
  intros Ha Hc Hn Hd. cbn [get_attr]. rewrite Ha, Hn. unfold class_attr.
  by rewrite Hc, Hd.
Qed.

Ltac step_with H := rewrite run_vis; cbn [do_op]; rewrite H.

(** X10. With working collaborators, [collect_evidence] on a collector
    completes phases 1 to 3 (observe, probe, detect gaps, each called with the
    arguments of lines 78-93) and fails in phase 4 with [AttributeError]:
    [QuantumEvidenceCollector] defines no [discover_cognitive_contradictions].
    The store is the one the third call left; no [QuantumEvidence] is
    constructed. *)
Theorem collect_evidence_stops_in_phase_4 foreign fuel nm
    s s1 s2 s3 a attrs target collection_params
    observer observe ObservationMode mode observations
    probe_obj probe consciousness depth consciousness_state
    monitor detect_gaps reality_model reality_gaps :
  (* Phase 1 *)
  get_attr s (VObj a) "quantum_observer" = Some observer ->
  get_attr s observer "observe" = Some observe ->
  lookup_global s "ObservationMode" = Some ObservationMode ->
  get_attr s ObservationMode "NON_DEMOLITION" = Some mode ->
  run foreign fuel (call observe [target] [("observation_mode", mode)]) s
    = Ok observations s1 ->
  (* Phase 2 *)
  get_attr s1 (VObj a) "consciousness_probe" = Some probe_obj ->
  get_attr s1 probe_obj "probe" = Some probe ->
  get_attr s1 target "consciousness" = Some consciousness ->
  get_attr s1 collection_params "probe_depth" = Some depth ->
  run foreign fuel (call probe [consciousness] [("probe_depth", depth)]) s1
    = Ok consciousness_state s2 ->
  (* Phase 3 *)
  get_attr s2 (VObj a) "reality_monitor" = Some monitor ->
  get_attr s2 monitor "detect_gaps" = Some detect_gaps ->
  get_attr s2 target "reality_model" = Some reality_model ->
  run foreign fuel (call detect_gaps [reality_model; observations] []) s2
    = Ok reality_gaps s3 ->
  (* [self] is a collector without further attributes *)
  heap s3 !! a = Some (Instance "QuantumEvidenceCollector" attrs) ->
  classes s3 !! "QuantumEvidenceCollector"
    = Some (QuantumEvidenceCollector_class nm) ->
  attrs !! "discover_cognitive_contradictions" = None ->
  run foreign fuel
    (QuantumEvidenceCollector.collect_evidence (VObj a) target collection_params) s
  = Err (AttributeError "discover_cognitive_contradictions") s3.
Proof.
  intros H1 H2 H3 H4 C1 H5 H6 H7 H8 C2 H9 H10 H11 C3 Ha Hc Hattrs.
  rewrite run_call in C1, C2, C3.
  unfold QuantumEvidenceCollector.collect_evidence.
  cbn [bind load_attr load_global call perform].
  step_with H1. step_with H2.
  rewrite load_global_outcome, H3. step_with H4. step_with C1.
  step_with H5. step_with H6. step_with H7. step_with H8. step_with C2.
  step_with H9. step_with H10. step_with H11. step_with C3.
  rewrite run_vis. cbn [do_op].
  by rewrite (instance_lacks s3 a _ attrs _ _ Ha Hc Hattrs eq_refl).
Qed.

Lemma section_outcome foreign fuel nm s s1 RS section a attrs st :
  lookup_global s "ReportSection" = Some RS ->
  run foreign fuel
    (call RS [] [("title", VStr "System Consciousness Analysis")]) s
    = Ok section s1 ->
  heap s1 !! a = Some (Instance "QuantumReportGenerator" attrs) ->
  classes s1 !! "QuantumReportGenerator"
    = Some (QuantumReportGenerator_class nm) ->
  attrs !! "map_belief_system" = None ->
  exists e,
    run foreign fuel
      (QuantumReportGenerator.generate_consciousness_section (VObj a) st) s
    = Err e s1
    /\ e = match get_attr s1 section "add_subsection" with
           | Some _ => AttributeError "map_belief_system"
           | None => AttributeError "add_subsection"
           end.
Proof.
  intros HRS Hcall Ha Hc Hattrs. rewrite run_call in Hcall.
  unfold QuantumReportGenerator.generate_consciousness_section.
  cbn [bind load_attr load_global call perform].
  rewrite load_global_outcome, HRS. step_with Hcall.
  rewrite run_vis. cbn [do_op].
  destruct (get_attr s1 section "add_subsection") as [add|]; [|by eexists].
  rewrite run_vis. cbn [do_op].
  rewrite (instance_lacks s1 a _ attrs _ _ Ha Hc Hattrs eq_refl).
  by eexists.
Qed.

(** X11. With [ReportSection] supplied, [generate_consciousness_section] on
    a generator creates the section with the title "System Consciousness
    Analysis" and then fails with [AttributeError] before any call of
    [add_subsection]: for [add_subsection] if the section lacks it, and
    otherwise for [map_belief_system], which [QuantumReportGenerator] does
    not define.  The store is the one [ReportSection(...)] left. *)
Theorem generate_consciousness_section_adds_nothing
    foreign fuel nm s s1 RS section a attrs st :
  lookup_global s "ReportSection" = Some RS ->
  run foreign fuel
    (call RS [] [("title", VStr "System Consciousness Analysis")]) s
    = Ok section s1 ->
  heap s1 !! a = Some (Instance "QuantumReportGenerator" attrs) ->
  classes s1 !! "QuantumReportGenerator"
    = Some (QuantumReportGenerator_class nm) ->
  attrs !! "map_belief_system" = None ->
  exists e,
    run foreign fuel
      (QuantumReportGenerator.generate_consciousness_section (VObj a) st) s
    = Err e s1
    /\ e = match get_attr s1 section "add_subsection" with
           | Some _ => AttributeError "map_belief_system"
           | None => AttributeError "add_subsection"
           end.
Proof.
  intros HRS Hcall Ha Hc Hattrs.
  exact (section_outcome foreign fuel nm s s1 RS section a attrs st
           HRS Hcall Ha Hc Hattrs).
Qed.

(** X12. With [Report] supplied, [generate_report] on a generator gets as far
    as its first section, [self.generate_consciousness_section(
    evidence.consciousness_state)], and ends there: with [AttributeError] if
    the evidence has no [consciousness_state], and otherwise with the error of
    the nested call ([NameError] for [ReportSection], or the
    [AttributeError] of X11 when [ReportSection] is supplied).  No item of
    [report.sections] is assigned. *)
Theorem generate_report_stops_in_first_section
    foreign fuel nm s s1 R report a attrs evidence report_format :
  lookup_global s "Report" = Some R ->
  run foreign (S fuel) (call R [] []) s = Ok report s1 ->
  heap s1 !! a = Some (Instance "QuantumReportGenerator" attrs) ->
  classes s1 !! "QuantumReportGenerator"
    = Some (QuantumReportGenerator_class nm) ->
  attrs !! "generate_consciousness_section" = None ->
  (get_attr s1 evidence "consciousness_state" = None ->
   run foreign (S fuel)
     (QuantumReportGenerator.generate_report (VObj a) evidence report_format) s
   = Err (AttributeError "consciousness_state") s1)
  /\ (forall st,
        get_attr s1 evidence "consciousness_state" = Some st ->
        lookup_global s1 "ReportSection" = None ->
        run foreign (S fuel)
          (QuantumReportGenerator.generate_report (VObj a) evidence report_format) s
        = Err (NameError "ReportSection") s1)
  /\ (forall st RS section s2 attrs2,
        get_attr s1 evidence "consciousness_state" = Some st ->
        lookup_global s1 "ReportSection" = Some RS ->
        run foreign fuel
          (call RS [] [("title", VStr "System Consciousness Analysis")]) s1
          = Ok section s2 ->
        heap s2 !! a = Some (Instance "QuantumReportGenerator" attrs2) ->
        classes s2 !! "QuantumReportGenerator"
          = Some (QuantumReportGenerator_class nm) ->
        attrs2 !! "map_belief_system" = None ->
        exists e,
          run foreign (S fuel)
            (QuantumReportGenerator.generate_report (VObj a) evidence report_format) s
          = Err e s2
          /\ e = match get_attr s2 section "add_subsection" with
                 | Some _ => AttributeError "map_belief_system"
                 | None => AttributeError "add_subsection"
                 end).
Proof.
  intros HR Hcall Ha Hc Hattrs. rewrite run_call in Hcall.
  assert (Hm : get_attr s1 (VObj a) "generate_consciousness_section"
               = Some (VMethod "QuantumReportGenerator.generate_consciousness_section"
                         (VObj a))).
  { cbn [get_attr]. rewrite Ha, Hattrs. unfold class_attr. by rewrite Hc. }
  assert (Hstart : forall st r,
    get_attr s1 evidence "consciousness_state" = Some st ->
    run foreign fuel
      (QuantumReportGenerator.generate_consciousness_section (VObj a) st) s1 = r ->
    (forall v s', r <> Ok v s') ->
    run foreign (S fuel)
      (QuantumReportGenerator.generate_report (VObj a) evidence report_format) s = r).
  { intros st r Hst Hr Hno. unfold QuantumReportGenerator.generate_report.
    cbn [bind load_attr load_global call perform].
    rewrite load_global_outcome, HR. step_with Hcall. step_with Hm.
    step_with Hst. rewrite run_vis. cbn [do_op call_value].
    erewrite (call_function_body foreign fuel
                "QuantumReportGenerator.generate_consciousness_section"
                ["self"; "state"]
                (fun bs => QuantumReportGenerator.generate_consciousness_section
                             (arg bs "self") (arg bs "state")));
      [| reflexivity | reflexivity].
    cbv beta. set (x := arg _ "self"). vm_compute in x. subst x.
    set (x := arg _ "state"). vm_compute in x. subst x.
    rewrite Hr. destruct r as [v s'| |]; [by destruct (Hno v s') | done | done]. }
  repeat apply conj.
  - intros Hst. unfold QuantumReportGenerator.generate_report.
    cbn [bind load_attr load_global call perform].
    rewrite load_global_outcome, HR. step_with Hcall. step_with Hm.
    by step_with Hst.
  - intros st Hst HRS. apply (Hstart st); [exact Hst | | done].
    by apply load_global_outcome_none.
  - intros st RS section s2 attrs2 Hst HRS HcallRS Ha2 Hc2 Hattrs2.
    destruct (section_outcome foreign fuel nm s1 s2 RS section a attrs2 st
                HRS HcallRS Ha2 Hc2 Hattrs2) as (e & Hr & He).
    exists e. split; [|exact He]. apply (Hstart st); [exact Hst | exact Hr | done].
Qed.

Lemma assoc_is_Some {A} (n : string) (l : list (string * A)) :
  is_Some (assoc n l) <-> n ∈ l.*1.
Proof.
  induction l as [|[k v] l IH]; cbn.
  - split; [by intros [? ?] | by intros ?%elem_of_nil].
  - case_decide as E.
    + subst. split; [intros _; apply list_elem_of_here | by eexists].
    + rewrite IH. split; [apply list_elem_of_further|].
      intros [?|?]%elem_of_cons; [congruence | done].
Qed.

Lemma bind_positional_zip fields : forall args,
  length args <= length fields ->
  bind_positional fields args
  = Some (zip fields.*1 args, drop (length args) fields).
Proof.
  induction fields as [|[f d] fields IH]; intros [|a args] Hl; cbn in *; try lia.
  - reflexivity.
  - reflexivity.
  - rewrite IH; [reflexivity | lia].
Qed.

Lemma bind_keywords_Some rest : forall kwargs bs,
  Forall (fun f => f.2 = None) rest ->
  bind_keywords rest kwargs = Some bs ->
  bs.*1 = rest.*1
  /\ forall f, f ∈ rest.*1 -> exists v, assoc f kwargs = Some v /\ (f, v) ∈ bs.
Proof.
  induction rest as [|[p d] rest IH]; intros kwargs bs Hd; cbn.
  - intros [= <-]. split; [done|]. by intros f ?%elem_of_nil.
  - apply Forall_cons in Hd as [Hp Hd]. cbn in Hp. subst d.
    destruct (assoc p kwargs) as [v|] eqn:E; [|discriminate].
    destruct (bind_keywords rest kwargs) as [bs'|] eqn:E'; [|discriminate].
    intros [= <-]. destruct (IH kwargs bs' Hd E') as [Hk Hv].
    split; [cbn; by rewrite Hk|].
    intros f [->|Hf]%elem_of_cons.
    + exists v. split; [done | apply list_elem_of_here].
    + destruct (Hv f Hf) as (w & ? & ?). exists w.
      split; [done | by apply list_elem_of_further].
Qed.

Lemma bind_keywords_is_Some rest : forall kwargs,
  (forall f, f ∈ rest.*1 -> f ∈ kwargs.*1) ->
  is_Some (bind_keywords rest kwargs).
Proof.
  induction rest as [|[p d] rest IH]; intros kwargs H; cbn.
  - by eexists.
  - destruct (proj2 (assoc_is_Some p kwargs)) as [v ->];
      [apply H, list_elem_of_here|].
    destruct (IH kwargs) as [bs ->]; [|by eexists].
    intros f Hf. by apply H, list_elem_of_further.
Qed.

Lemma forallb_elem_of (l ks : list string) :
  forallb (fun k => bool_decide (k ∈ l)) ks = true <-> forall k, k ∈ ks -> k ∈ l.
Proof.
  rewrite forallb_forall. split.
  - intros H k Hk. apply list_elem_of_In, H in Hk. by apply bool_decide_eq_true in Hk.
  - intros H k Hk. apply bool_decide_eq_true, H, list_elem_of_In, Hk.
Qed.

(** A call binds to parameters without defaults exactly when the keywords
    name the parameters the positional arguments leave over. *)
Lemma bind_args_fits fields args kwargs :
  Forall (fun f => f.2 = None) fields ->
  is_Some (bind_args fields args kwargs) <->
  length args <= length fields
  /\ (forall k, k ∈ kwargs.*1 -> k ∈ (drop (length args) fields).*1)
  /\ (forall f, f ∈ (drop (length args) fields).*1 -> f ∈ kwargs.*1).
Proof.
  intros Hd. unfold bind_args. split.
  - intros [bs Hb].
    destruct (decide (length args <= length fields)) as [Hl|Hl];
      [|rewrite bind_positional_long in Hb by lia; discriminate].
    rewrite (bind_positional_zip fields args Hl) in Hb.
    destruct (forallb _ _) eqn:Hk; [|discriminate].
    pose proof (proj1 (forallb_elem_of (drop (length args) fields).*1 kwargs.*1) Hk) as Hk'.
    destruct (bind_keywords _ kwargs) as [bs'|] eqn:E; [|discriminate].
    split; [exact Hl|]. split; [exact Hk'|].
    intros f Hf.
    destruct (proj2 (bind_keywords_Some _ kwargs bs' (Forall_drop _ _ _ Hd) E) f Hf)
      as (v & Hv & _).
    apply assoc_is_Some. by eexists.
  - intros (Hl & Hk & Hf). rewrite (bind_positional_zip fields args Hl).
    rewrite (proj2 (forallb_elem_of (drop (length args) fields).*1 kwargs.*1) Hk).
    destruct (bind_keywords_is_Some _ kwargs Hf) as [bs' ->]. by eexists.
Qed.

Lemma foldl_insert_notin (bs : list (string * value)) : forall (m : gmap string value) k,
  k ∉ bs.*1 ->
  foldl (fun m b => <[b.1 := b.2]> m) m bs !! k = m !! k.
Proof.
  induction bs as [|[n v] bs IH]; intros m k Hk; cbn; [done|].
  cbn in Hk. apply not_elem_of_cons in Hk as [Hn Hk].
  rewrite IH by done. by rewrite lookup_insert_ne.
Qed.

Lemma foldl_insert_lookup (bs : list (string * value)) : forall (m : gmap string value) k v,
  NoDup bs.*1 -> (k, v) ∈ bs ->
  foldl (fun m b => <[b.1 := b.2]> m) m bs !! k = Some v.
Proof.
  induction bs as [|[n x] bs IH]; intros m k v Hnd Hin; cbn.
  - by apply elem_of_nil in Hin.
  - cbn in Hnd. apply NoDup_cons in Hnd as [Hn Hnd].
    apply elem_of_cons in Hin as [[= -> ->]|Hin].
    + rewrite foldl_insert_notin by done. apply lookup_insert_eq.
    + by apply IH.
Qed.

Lemma zip_fst_take (l : list string) : forall (k : list value),
  (zip l k).*1 = take (length k) l.
Proof.
  induction l as [|x l IH]; intros [|y k]; cbn; [done..|]. by rewrite IH.
Qed.

(** What a successful binding to parameters without defaults binds: every
    parameter once, to its positional argument if there is one and to its
    keyword argument otherwise. *)
Lemma bind_args_Some fields args kwargs bs :
  Forall (fun f => f.2 = None) fields ->
  bind_args fields args kwargs = Some bs ->
  bs.*1 = fields.*1
  /\ forall i f, fields.*1 !! i = Some f ->
       exists v, (f, v) ∈ bs
                 /\ Some v = match args !! i with
                             | Some x => Some x
                             | None => assoc f kwargs
                             end.
Proof.
  intros Hd Hb. unfold bind_args in Hb.
  destruct (decide (length args <= length fields)) as [Hl|Hl];
    [|rewrite bind_positional_long in Hb by lia; discriminate].
  rewrite (bind_positional_zip fields args Hl) in Hb.
  destruct (forallb _ _); [|discriminate].
  destruct (bind_keywords _ kwargs) as [bs'|] eqn:E; [|discriminate].
  injection Hb as <-.
  destruct (bind_keywords_Some _ kwargs bs' (Forall_drop _ _ _ Hd) E) as [Hk Hv].
  split.
  - rewrite fmap_app, zip_fst_take, Hk, fmap_drop. apply take_drop.
  - intros i f Hi. destruct (args !! i) as [x|] eqn:Ex.
    + exists x. split; [|done]. apply elem_of_app. left.
      apply list_elem_of_lookup. exists i.
      apply lookup_zip_with_Some. by exists f, x.
    + apply lookup_ge_None in Ex.
      destruct (Hv f) as (v & Ha & Hin).
      { rewrite fmap_drop. apply list_elem_of_lookup. exists (i - length args).
        rewrite lookup_drop. by replace (length args + (i - length args)) with i by lia. }
      exists v. split; [|done]. apply elem_of_app. by right.
Qed.

(** X13. The constructor of [QuantumEvidence] accepts a call exactly when it
    passes at most six positional arguments and its keywords name exactly
    the fields that are left over, in any order.  Then each field holds its
    positional argument, or else its keyword argument; any other call (a
    seventh argument, a keyword that is no field or names a field bound by
    position, a missing field) raises [TypeError] and leaves only the
    attribute-less new instance behind.  The keywords of a call are pairwise
    distinct, as Python's call syntax has them. *)
Theorem constructor_call_fits foreign fuel name s args kwargs :
  loaded name s ->
  NoDup kwargs.*1 ->
  (fits args kwargs ->
   exists s',
     run foreign fuel (call (VClass "QuantumEvidence") args kwargs) s
       = Ok (VObj (fresh (dom (heap s)))) s'
     /\ forall i f, QuantumEvidence.field_names !! i = Some f ->
          get_attr s' (VObj (fresh (dom (heap s)))) f
          = match args !! i with
            | Some v => Some v
            | None => assoc f kwargs
            end)
  /\ (~ fits args kwargs ->
      run foreign fuel (call (VClass "QuantumEvidence") args kwargs) s
      = Err TypeError (allocated "QuantumEvidence" s)).
Proof.
  intros Hs _.
  set (fields := map (fun f : string => (f, @None value)) QuantumEvidence.field_names).
  assert (Hd : Forall (fun f => f.2 = None) fields) by (repeat constructor).
  assert (Hfits : fits args kwargs <-> is_Some (bind_args fields args kwargs)).
  { rewrite (bind_args_fits fields args kwargs Hd). unfold fits.
    rewrite fmap_drop. reflexivity. }
  assert (Hrun : run foreign fuel (call (VClass "QuantumEvidence") args kwargs) s
    = match bind_args fields args kwargs with
      | Some bs =>
          match store_all (allocated "QuantumEvidence" s)
                  (VObj (fresh (dom (heap s)))) bs with
          | Ok _ s2 => Ok (VObj (fresh (dom (heap s)))) s2
          | r => r
          end
      | None => Err TypeError (allocated "QuantumEvidence" s)
      end).
  { rewrite run_call. cbn [call_value]. unfold instantiate.
    by rewrite (loaded_class name s Hs). }
  split.
  - intros [bs Hb]%Hfits. rewrite Hrun, Hb.
    destruct (bind_args_Some fields args kwargs bs Hd Hb) as [Hk Hv].
    assert (Hnames : bs.*1 = QuantumEvidence.field_names) by exact Hk.
    rewrite (store_all_accepts bs (allocated "QuantumEvidence" s)
               (fresh (dom (heap s))) "QuantumEvidence" ∅).
    + eexists. split; [reflexivity|]. intros i f Hi.
      destruct (Hv i f Hi) as (v & Hin & <-).
      cbn [get_attr with_heap heap]. rewrite lookup_insert_eq.
      rewrite (foldl_insert_lookup bs ∅ f v); [reflexivity | | exact Hin].
      rewrite Hnames. apply (bool_decide_unpack _). vm_compute. exact I.
    + apply lookup_insert_eq.
    + apply Forall_forall. intros [n v] Hin. cbn [fst].
      rewrite (accepts_field name (allocated "QuantumEvidence" s) n
                 (loaded_with_heap name s _ Hs)).
      apply bool_decide_eq_true. rewrite <- Hnames.
      apply list_elem_of_fmap. by exists (n, v).
  - intros Hno. rewrite Hrun.
    destruct (bind_args fields args kwargs) as [bs|] eqn:Hb; [|reflexivity].
    destruct Hno. apply Hfits. by eexists.
Qed.

Lemma slots_respected_cells s :
  map_Forall (fun _ c => cell_respects_slots c) (heap s) -> slots_respected s.
Proof.
  intros H a attrs n Ha [v Hn]. exact (H a _ Ha eq_refl n v Hn).
Qed.

Lemma collector_statement_outcome_witness :
  globals annotated_store !! "__name__"
    = Some (VStr "evidence.experimental_evidence")
  /\ run sample_foreign 0 class_QuantumEvidenceCollector annotated_store
     = Ok VNone
         (define_class "QuantumEvidenceCollector"
            (QuantumEvidenceCollector_class (VStr "evidence.experimental_evidence"))
            annotated_store).
Proof.
  assert (H : globals annotated_store !! "__name__"
              = Some (VStr "evidence.experimental_evidence")) by reflexivity.
  split; [exact H|].
  rewrite (collector_statement_outcome sample_foreign 0 annotated_store
             (VStr "evidence.experimental_evidence") H).
  vm_compute. reflexivity.
Defined.

Lemma generator_statement_outcome_witness :
  globals annotated_store !! "__name__"
    = Some (VStr "evidence.experimental_evidence")
  /\ run sample_foreign 0 class_QuantumReportGenerator annotated_store
     = Ok VNone
         (define_class "QuantumReportGenerator"
            (QuantumReportGenerator_class (VStr "evidence.experimental_evidence"))
            annotated_store)
  /\ run sample_foreign 0 class_QuantumReportGenerator
       (with_globals (delete "ConsciousnessState" (globals annotated_store))
          annotated_store)
     = Err (NameError "ConsciousnessState")
         (with_globals (delete "ConsciousnessState" (globals annotated_store))
            annotated_store).
Proof.
  assert (H : globals annotated_store !! "__name__"
              = Some (VStr "evidence.experimental_evidence")) by reflexivity.
  split; [exact H|]. split.
  - rewrite (generator_statement_outcome sample_foreign 0 annotated_store
               (VStr "evidence.experimental_evidence") H).
    vm_compute. reflexivity.
  - assert (H2 : globals
                   (with_globals
                      (delete "ConsciousnessState" (globals annotated_store))
                      annotated_store) !! "__name__"
                 = Some (VStr "evidence.experimental_evidence")) by reflexivity.
    rewrite (generator_statement_outcome sample_foreign 0 _ _ H2).
    vm_compute. reflexivity.
Defined.

Lemma collector_construction_fails_witness :
  (classes defined_store !! "QuantumEvidenceCollector"
     = Some (QuantumEvidenceCollector_class (VStr "evidence.experimental_evidence"))
   /\ lookup_global defined_store "QuantumObserver" = None)
  /\ run sample_foreign 1 (call (VClass "QuantumEvidenceCollector") [] []) defined_store
     = Err (NameError "QuantumObserver")
         (allocated "QuantumEvidenceCollector" defined_store).
Proof.
  assert (Hc : classes defined_store !! "QuantumEvidenceCollector"
     = Some (QuantumEvidenceCollector_class (VStr "evidence.experimental_evidence")))
    by reflexivity.
  assert (Hq : lookup_global defined_store "QuantumObserver" = None)
    by reflexivity.
  split; [exact (conj Hc Hq)|].
  exact (proj1 (collector_construction_fails sample_foreign 0 defined_store _
                  [] [] Hc Hq)).
Defined.

Lemma generator_instance_methods_witness :
  (classes defined_store !! "QuantumReportGenerator"
     = Some (QuantumReportGenerator_class (VStr "evidence.experimental_evidence"))
   /\ lookup_global defined_store "Report" = None)
  /\ run sample_foreign 1
       (g <- call (VClass "QuantumReportGenerator") [] [] ;;
        m <- load_attr g "generate_report" ;;
        call m [VNone; VStr "pdf"] []) defined_store
     = Err (NameError "Report") (allocated "QuantumReportGenerator" defined_store).
Proof.
  assert (Hc : classes defined_store !! "QuantumReportGenerator"
     = Some (QuantumReportGenerator_class (VStr "evidence.experimental_evidence")))
    by reflexivity.
  assert (Hr : lookup_global defined_store "Report" = None) by reflexivity.
  split; [exact (conj Hc Hr)|].
  exact (proj1 (proj2 (proj2
           (generator_instance_methods sample_foreign 0 defined_store _
              VNone (VStr "pdf") [] [] Hc Hr)))).
Defined.

Lemma evidence_instance_methods_witness :
  (loaded "evidence.experimental_evidence" sample_store /\ length sample_values = 6)
  /\ run sample_foreign 1
       (e <- call (VClass "QuantumEvidence") sample_values [] ;;
        m <- load_attr e "to_report" ;;
        call m [] []) sample_store
     = Err (NameError "QuantumReport") (new_instance sample_store sample_values).
Proof.
  assert (H : loaded "evidence.experimental_evidence" sample_store)
    by (split; reflexivity).
  assert (Hl : length sample_values = 6) by reflexivity.
  split; [exact (conj H Hl)|].
  exact (proj1 (evidence_instance_methods sample_foreign 0 _ sample_store
                  sample_values VNone H Hl)).
Defined.

Lemma field_assignment_round_trip_witness :
  (classes lab_store !! "QuantumEvidence"
     = Some (QuantumEvidence_class "evidence.experimental_evidence")
   /\ heap lab_store !! 7
      = Some (Instance "QuantumEvidence"
                (list_to_map (zip QuantumEvidence.field_names sample_values)))
   /\ "quantum_certainty" ∈ QuantumEvidence.field_names)
  /\ exists s',
       run lab_foreign 0 (store_attr (VObj 7) "quantum_certainty" (VStr "unknown"))
         lab_store = Ok VNone s'
       /\ run lab_foreign 0 (load_attr (VObj 7) "quantum_certainty") s'
          = Ok (VStr "unknown") s'.
Proof.
  assert (Hc : classes lab_store !! "QuantumEvidence"
     = Some (QuantumEvidence_class "evidence.experimental_evidence"))
    by reflexivity.
  assert (Ha : heap lab_store !! 7
      = Some (Instance "QuantumEvidence"
                (list_to_map (zip QuantumEvidence.field_names sample_values))))
    by reflexivity.
  assert (Hf : "quantum_certainty" ∈ QuantumEvidence.field_names)
    by (apply (bool_decide_unpack _); vm_compute; exact I).
  split; [exact (conj Hc (conj Ha Hf))|].
  destruct (field_assignment_round_trip lab_foreign 0 _ lab_store 7 _
              "quantum_certainty" (VStr "unknown") Hc Ha Hf)
    as (s' & Hstore & Hload & _).
  exists s'. exact (conj Hstore Hload).
Defined.

Lemma slots_are_kept_witness :
  (classes lab_store !! "QuantumEvidence"
     = Some (QuantumEvidence_class "evidence.experimental_evidence")
   /\ slots_respected lab_store
   /\ fixed_operation (Call (VClass "QuantumEvidence") sample_values [])
   /\ run lab_foreign 0 (perform (Call (VClass "QuantumEvidence") sample_values []))
        lab_store
      = Ok (VObj 10) (new_instance lab_store sample_values))
  /\ slots_respected (new_instance lab_store sample_values).
Proof.
  assert (Hc : classes lab_store !! "QuantumEvidence"
     = Some (QuantumEvidence_class "evidence.experimental_evidence"))
    by reflexivity.
  assert (Hs : slots_respected lab_store)
    by (apply slots_respected_cells, (bool_decide_unpack _); vm_compute; exact I).
  assert (Ho : fixed_operation (Call (VClass "QuantumEvidence") sample_values []))
    by reflexivity.
  assert (Hr : run lab_foreign 0
                 (perform (Call (VClass "QuantumEvidence") sample_values []))
                 lab_store
               = Ok (VObj 10) (new_instance lab_store sample_values))
    by (vm_compute; reflexivity).
  split; [exact (conj Hc (conj Hs (conj Ho Hr)))|].
  exact (proj1 (slots_are_kept lab_foreign 0 _ lab_store _ _ _ Hc Hs Ho Hr)).
Defined.

Lemma analyze_consciousness_lacks_helpers_witness :
  (lookup_global lab_store "ConsciousnessAnalysis"
     = Some (VLib "lab.ConsciousnessAnalysis")
   /\ run lab_foreign 0 (call (VLib "lab.ConsciousnessAnalysis") [] []) lab_store
      = Ok (VObj 9) lab_store
   /\ classes lab_store !! "QuantumEvidence"
      = Some (QuantumEvidence_class "evidence.experimental_evidence")
   /\ heap lab_store !! 7
      = Some (Instance "QuantumEvidence"
                (list_to_map (zip QuantumEvidence.field_names sample_values)))
   /\ slots_respected lab_store)
  /\ run lab_foreign 0 (QuantumEvidence.analyze_consciousness (VObj 7)) lab_store
     = Err (AttributeError "extract_belief_system") lab_store.
Proof.
  assert (HA : lookup_global lab_store "ConsciousnessAnalysis"
               = Some (VLib "lab.ConsciousnessAnalysis")) by reflexivity.
  assert (Hcall : run lab_foreign 0 (call (VLib "lab.ConsciousnessAnalysis") [] [])
                    lab_store = Ok (VObj 9) lab_store) by reflexivity.
  assert (Hc : classes lab_store !! "QuantumEvidence"
     = Some (QuantumEvidence_class "evidence.experimental_evidence"))
    by reflexivity.
  assert (Ha : heap lab_store !! 7
      = Some (Instance "QuantumEvidence"
                (list_to_map (zip QuantumEvidence.field_names sample_values))))
    by reflexivity.
  assert (Hs : slots_respected lab_store)
    by (apply slots_respected_cells, (bool_decide_unpack _); vm_compute; exact I).
  split; [exact (conj HA (conj Hcall (conj Hc (conj Ha Hs))))|].
  exact (analyze_consciousness_lacks_helpers lab_foreign 0 _ lab_store lab_store
           _ _ 7 _ HA Hcall Hc Ha Hs).
Defined.

Lemma to_report_stops_in_analyze_consciousness_witness :
  (lookup_global lab_store "QuantumReport" = Some (VLib "lab.QuantumReport")
   /\ run lab_foreign 1 (call (VLib "lab.QuantumReport") [] []) lab_store
      = Ok (VObj 9) lab_store
   /\ classes lab_store !! "QuantumEvidence"
      = Some (QuantumEvidence_class "evidence.experimental_evidence")
   /\ heap lab_store !! 7
      = Some (Instance "QuantumEvidence"
                (list_to_map (zip QuantumEvidence.field_names sample_values)))
   /\ slots_respected lab_store)
  /\ run lab_foreign 1 (QuantumEvidence.to_report (VObj 7)) lab_store
     = Err (AttributeError "extract_belief_system") lab_store.
Proof.
  assert (HR : lookup_global lab_store "QuantumReport"
               = Some (VLib "lab.QuantumReport")) by reflexivity.
  assert (Hcall : run lab_foreign 1 (call (VLib "lab.QuantumReport") [] [])
                    lab_store = Ok (VObj 9) lab_store) by reflexivity.
  assert (Hc : classes lab_store !! "QuantumEvidence"
     = Some (QuantumEvidence_class "evidence.experimental_evidence"))
    by reflexivity.
  assert (Ha : heap lab_store !! 7
      = Some (Instance "QuantumEvidence"
                (list_to_map (zip QuantumEvidence.field_names sample_values))))
    by reflexivity.
  assert (Hs : slots_respected lab_store)
    by (apply slots_respected_cells, (bool_decide_unpack _); vm_compute; exact I).
  split; [exact (conj HR (conj Hcall (conj Hc (conj Ha Hs))))|].
  refine (proj2 (to_report_stops_in_analyze_consciousness lab_foreign 0 _
                   lab_store lab_store _ _ 7 _ HR Hcall Hc Ha Hs)
            (VLib "lab.ConsciousnessAnalysis") (VObj 9) lab_store _ _ _ Hc Ha Hs);
    reflexivity.
Defined.

Lemma collect_evidence_stops_in_phase_4_witness :
  (heap lab_store !! 0
     = Some (Instance "QuantumEvidenceCollector"
               (list_to_map [("quantum_observer", VObj 1);
                             ("reality_monitor", VObj 2);
                             ("consciousness_probe", VObj 3)]))
   /\ classes lab_store !! "QuantumEvidenceCollector"
      = Some (QuantumEvidenceCollector_class (VStr "evidence.experimental_evidence"))
   /\ lookup_global lab_store "ObservationMode" = Some (VObj 4))
  /\ run lab_foreign 0
       (QuantumEvidenceCollector.collect_evidence (VObj 0) (VObj 5) (VObj 6))
       lab_store
     = Err (AttributeError "discover_cognitive_contradictions") lab_store.
Proof.
  assert (Ha : heap lab_store !! 0
     = Some (Instance "QuantumEvidenceCollector"
               (list_to_map [("quantum_observer", VObj 1);
                             ("reality_monitor", VObj 2);
                             ("consciousness_probe", VObj 3)])))
    by reflexivity.
  assert (Hc : classes lab_store !! "QuantumEvidenceCollector"
      = Some (QuantumEvidenceCollector_class (VStr "evidence.experimental_evidence")))
    by reflexivity.
  assert (Hm : lookup_global lab_store "ObservationMode" = Some (VObj 4))
    by reflexivity.
  split; [exact (conj Ha (conj Hc Hm))|].
  refine (collect_evidence_stops_in_phase_4 lab_foreign 0 _
            lab_store lab_store lab_store lab_store 0 _ (VObj 5) (VObj 6)
            (VObj 1) (VLib "lab.observe") (VObj 4) (VStr "non-demolition") (VObj 9)
            (VObj 3) (VLib "lab.probe") (VStr "awake") (VStr "deep") (VObj 9)
            (VObj 2) (VLib "lab.detect_gaps") (VStr "flat") (VObj 9)
            _ _ Hm _ _ _ _ _ _ _ _ _ _ _ Ha Hc _);
    reflexivity.
Defined.

Lemma generate_consciousness_section_adds_nothing_witness :
  (lookup_global lab_store "ReportSection" = Some (VLib "lab.ReportSection")
   /\ run lab_foreign 0
        (call (VLib "lab.ReportSection") []
           [("title", VStr "System Consciousness Analysis")]) lab_store
      = Ok (VObj 9) lab_store
   /\ heap lab_store !! 8 = Some (Instance "QuantumReportGenerator" ∅)
   /\ classes lab_store !! "QuantumReportGenerator"
      = Some (QuantumReportGenerator_class (VStr "evidence.experimental_evidence")))
  /\ run lab_foreign 0
       (QuantumReportGenerator.generate_consciousness_section (VObj 8) (VObj 5))
       lab_store
     = Err (AttributeError "map_belief_system") lab_store.
Proof.
  assert (HRS : lookup_global lab_store "ReportSection"
                = Some (VLib "lab.ReportSection")) by reflexivity.
  assert (Hcall : run lab_foreign 0
        (call (VLib "lab.ReportSection") []
           [("title", VStr "System Consciousness Analysis")]) lab_store
      = Ok (VObj 9) lab_store) by reflexivity.
  assert (Ha : heap lab_store !! 8 = Some (Instance "QuantumReportGenerator" ∅))
    by reflexivity.
  assert (Hc : classes lab_store !! "QuantumReportGenerator"
      = Some (QuantumReportGenerator_class (VStr "evidence.experimental_evidence")))
    by reflexivity.
  split; [exact (conj HRS (conj Hcall (conj Ha Hc)))|].
  destruct (generate_consciousness_section_adds_nothing lab_foreign 0 _
              lab_store lab_store _ _ 8 ∅ (VObj 5) HRS Hcall Ha Hc eq_refl)
    as (e & Hr & He).
  rewrite Hr, He. reflexivity.
Defined.

Lemma generate_report_stops_in_first_section_witness :
  (lookup_global lab_store "Report" = Some (VLib "lab.Report")
   /\ run lab_foreign 1 (call (VLib "lab.Report") [] []) lab_store
      = Ok (VObj 9) lab_store
   /\ heap lab_store !! 8 = Some (Instance "QuantumReportGenerator" ∅)
   /\ classes lab_store !! "QuantumReportGenerator"
      = Some (QuantumReportGenerator_class (VStr "evidence.experimental_evidence")))
  /\ run lab_foreign 1
       (QuantumReportGenerator.generate_report (VObj 8) (VObj 7) (VStr "pdf"))
       lab_store
     = Err (AttributeError "map_belief_system") lab_store.
Proof.
  assert (HR : lookup_global lab_store "Report" = Some (VLib "lab.Report"))
    by reflexivity.
  assert (Hcall : run lab_foreign 1 (call (VLib "lab.Report") [] []) lab_store
      = Ok (VObj 9) lab_store) by reflexivity.
  assert (Ha : heap lab_store !! 8 = Some (Instance "QuantumReportGenerator" ∅))
    by reflexivity.
  assert (Hc : classes lab_store !! "QuantumReportGenerator"
      = Some (QuantumReportGenerator_class (VStr "evidence.experimental_evidence")))
    by reflexivity.
  split; [exact (conj HR (conj Hcall (conj Ha Hc)))|].
  destruct (proj2 (proj2
              (generate_report_stops_in_first_section lab_foreign 0 _
                 lab_store lab_store _ _ 8 ∅ (VObj 7) (VStr "pdf")
                 HR Hcall Ha Hc eq_refl))
              VNone (VLib "lab.ReportSection") (VObj 9) lab_store ∅
              eq_refl eq_refl eq_refl Ha Hc eq_refl)
    as (e & Hr & He).
  rewrite Hr, He. reflexivity.
Defined.

Lemma constructor_call_fits_witness :
  (loaded "evidence.experimental_evidence" sample_store
   /\ NoDup [("temporal_anomalies", VList []);
             ("quantum_certainty", VFloat one_and_a_half);
             ("cognitive_contradictions", VList []);
             ("entanglement_correlation", VStr "not an array")].*1
   /\ fits [VNone; VList []]
        [("temporal_anomalies", VList []);
         ("quantum_certainty", VFloat one_and_a_half);
         ("cognitive_contradictions", VList []);
         ("entanglement_correlation", VStr "not an array")])
  /\ exists s',
       run sample_foreign 0
         (call (VClass "QuantumEvidence") [VNone; VList []]
            [("temporal_anomalies", VList []);
             ("quantum_certainty", VFloat one_and_a_half);
             ("cognitive_contradictions", VList []);
             ("entanglement_correlation", VStr "not an array")]) sample_store
       = Ok (VObj 2) s'
       /\ get_attr s' (VObj 2) "quantum_certainty" = Some (VFloat one_and_a_half)
       /\ get_attr s' (VObj 2) "reality_gaps" = Some (VList []).
Proof.
  assert (H : loaded "evidence.experimental_evidence" sample_store)
    by (split; reflexivity).
  assert (Hf : fits [VNone; VList []]
        [("temporal_anomalies", VList []);
         ("quantum_certainty", VFloat one_and_a_half);
         ("cognitive_contradictions", VList []);
         ("entanglement_correlation", VStr "not an array")]).
  { split; [cbn; lia|].
    split; intros k Hk; cbn in Hk |- *;
      repeat (apply elem_of_cons in Hk as [->|Hk];
              [apply (bool_decide_unpack _); vm_compute; exact I|]);
      by apply elem_of_nil in Hk. }
  assert (Hd : NoDup
        [("temporal_anomalies", VList []);
         ("quantum_certainty", VFloat one_and_a_half);
         ("cognitive_contradictions", VList []);
         ("entanglement_correlation", VStr "not an array")].*1).
  { apply (bool_decide_unpack _). vm_compute. exact I. }
  split; [exact (conj H (conj Hd Hf))|].
  destruct (proj1 (constructor_call_fits sample_foreign 0 _ sample_store _ _ H Hd) Hf)
    as (s' & Hr & Hg).
  exists s'. split; [exact Hr|]. split.
  - exact (Hg 3 "quantum_certainty" eq_refl).
  - exact (Hg 1 "reality_gaps" eq_refl).
Defined.
